(** * Brixel UI Task SDK

    A shallow embedding of the task side of the Brixel host/iframe protocol
    ([useBrixelTask.ts]) and of the remote task invocation client
    ([executeTask.ts]), with the properties of the session state machine and
    of the HTTP request construction proved over it.

    TypeScript types are erased at run time: [event.data] is cast, not
    checked, so the hook's message handler and its state cells are modelled
    over untyped JavaScript values. *)

From Stdlib Require Import ZArith String.
From stdpp Require Import gmap strings list fin_maps pretty.

Local Set Warnings "-register-all".
Local Open Scope string_scope.

(** ** JavaScript values *)

Module Js.

(** The data a message event or a JSON body can carry.  Objects are finite
    maps from property names to values; numbers keep what the code
    observes of them, which is only whether they are zero or NaN. *)
Inductive value : Type :=
| Undefined
| Null
| Bool (b : bool)
| Num (n : Z)
| NaN
| Str (s : string)
| Arr (l : list value)
| Obj (m : gmap string value).

(** ToBoolean: what [if (v)], [!v], [a || b] and [c ? x : y] test. *)
Definition truthy (v : value) : bool :=
  match v with
  | Undefined | Null | NaN => false
  | Bool b => b
  | Num n => negb (n =? 0)%Z
  | Str s => negb (String.eqb s "")
  | Arr _ | Obj _ => true
  end.

(** The [typeof] operator. *)
Definition typeof (v : value) : string :=
  match v with
  | Undefined => "undefined"
  | Bool _ => "boolean"
  | Num _ | NaN => "number"
  | Str _ => "string"
  | Null | Arr _ | Obj _ => "object"
  end.

Definition nullish (v : value) : bool :=
  match v with
  | Undefined | Null => true
  | _ => false
  end.

(** [a ?? b] *)
Definition coalesce (a b : value) : value := if nullish a then b else a.

(** [a || b] *)
Definition or (a b : value) : value := if truthy a then a else b.

(** Reading a named property [v.k] of a value that is not null or
    undefined.  The code reads only the names [type], [payload], [runId],
    [inputs], [context], [renderMode], [code], [message] and [details];
    none of them is an index, [length] or a built-in of a prototype, so on
    anything but a plain object the read gives [undefined]. *)
Definition get (v : value) (k : string) : value :=
  match v with
  | Obj m => default Undefined (m !! k)
  | _ => Undefined
  end.

(** What a thrown thing is to a [catch] clause: an [Error] instance with
    its [message], or any other value. *)
Inductive thrown : Type :=
| Error (name message : string)
| Raised (v : value).

(** Reading a property where the base may be null or undefined: that
    raises a TypeError.  The text of the message is the engine's (V8's
    wording here); the code only passes it on. *)
Definition member (v : value) (k : string) : thrown + value :=
  if nullish v
  then inl (Error "TypeError"
              ("Cannot read properties of "
               ++ (match v with Null => "null" | _ => "undefined" end)
               ++ " (reading '" ++ k ++ "')"))
  else inr (get v k).

(** The own enumerable properties a spread [{...v}] copies: the entries of
    an object, the indexed elements of an array, the indexed characters of
    a string, nothing for the other primitives, null and undefined. *)
Definition indexed {A : Type} (l : list A) : gmap string A :=
  list_to_map (imap (fun (i : nat) (x : A) => (pretty i, x)) l).

Fixpoint chars (s : string) : list string :=
  match s with
  | EmptyString => []
  | String c s' => String c EmptyString :: chars s'
  end.

Definition ownProps (v : value) : gmap string value :=
  match v with
  | Obj m => m
  | Arr l => indexed l
  | Str s => indexed (Str <$> chars s)
  | _ => ∅
  end.

(** [{ ...a, ...b }]: the properties of [b] win. *)
Definition spread2 (a b : value) : value := Obj (ownProps b ∪ ownProps a).

End Js.

Import Js.

(** ** Session state ([useBrixelTask.ts]) *)

(** [TaskStatus] of [types.ts]. *)
Inductive TaskStatus : Type :=
| initializing
| ready
| completed
| cancelled
| error.

(** The window a message is posted to: [window.parent] when embedded,
    [window] itself in standalone mode. *)
Inductive Window : Type :=
| parent
| self.

(** The state cells ([useState]) and refs ([useRef]) of one hook instance,
    as the last handled event left them. *)
Record State : Type := mkState {
  inputs : value;
  context : value;
  status : TaskStatus;
  renderMode : value;
  runId : value;
  isEmbedded : bool;
  parentWindow : option Window;
  hasCompleted : bool
}.

(** [UseBrixelTaskOptions], with their defaults applied.  A callback is
    represented by whether it is registered; calling it is an effect. *)
Record Options : Type := mkOptions {
  targetOrigin : string;
  onInputsUpdate : bool;
  onDestroy : bool;
  debug : bool
}.

Definition defaultOptions : Options :=
  {| targetOrigin := "*"; onInputsUpdate := false; onDestroy := false;
     debug := false |}.

(** What the hook does to the outside world. *)
Inductive Effect : Type :=
| PostMessage (target : Window) (message : value) (origin : string)
| ConsoleLog (text : string) (data : value)
| ConsoleError (text : string)
| CallInputsUpdate (arg : value)
| CallDestroy.

(** *** A state, trace and exception monad for the handlers *)

Inductive Completion (A : Type) : Type :=
| Normal (a : A)
| Throw (e : thrown).
Arguments Normal {A} a.
Arguments Throw {A} e.

Record Run (A : Type) : Type := mkRun {
  completion : Completion A;
  store : State;
  trace : list Effect
}.
Arguments mkRun {A} _ _ _.
Arguments completion {A} _.
Arguments store {A} _.
Arguments trace {A} _.

Definition M (A : Type) : Type := State -> Run A.

Definition ret {A : Type} (a : A) : M A := fun s => mkRun (Normal a) s [].

Definition bind {A B : Type} (m : M A) (k : A -> M B) : M B :=
  fun s =>
    let r := m s in
    match completion r with
    | Normal a =>
        let r' := k a (store r) in
        mkRun (completion r') (store r') (trace r ++ trace r')%list
    | Throw e => mkRun (Throw e) (store r) (trace r)
    end.

#[global] Instance M_ret : MRet M := @ret.
#[global] Instance M_bind : MBind M := fun A B k m => bind m k.

Definition getState : M State := fun s => mkRun (Normal s) s [].
Definition modify (f : State -> State) : M unit :=
  fun s => mkRun (Normal tt) (f s) [].
Definition emit (e : Effect) : M unit := fun s => mkRun (Normal tt) s [e].
Definition throw {A : Type} (e : thrown) : M A :=
  fun s => mkRun (Throw e) s [].

(** The setters of the state cells and the writes to the refs. *)
Definition setInputs (f : value -> value) : M unit :=
  modify (fun s => mkState (f (inputs s)) (context s) (status s) (renderMode s)
                     (runId s) (isEmbedded s) (parentWindow s) (hasCompleted s)).
Definition setContext (v : value) : M unit :=
  modify (fun s => mkState (inputs s) v (status s) (renderMode s)
                     (runId s) (isEmbedded s) (parentWindow s) (hasCompleted s)).
Definition setStatus (t : TaskStatus) : M unit :=
  modify (fun s => mkState (inputs s) (context s) t (renderMode s)
                     (runId s) (isEmbedded s) (parentWindow s) (hasCompleted s)).
Definition setRenderMode (v : value) : M unit :=
  modify (fun s => mkState (inputs s) (context s) (status s) v
                     (runId s) (isEmbedded s) (parentWindow s) (hasCompleted s)).
Definition setRunId (v : value) : M unit :=
  modify (fun s => mkState (inputs s) (context s) (status s) (renderMode s)
                     v (isEmbedded s) (parentWindow s) (hasCompleted s)).
Definition setParentWindow (w : option Window) : M unit :=
  modify (fun s => mkState (inputs s) (context s) (status s) (renderMode s)
                     (runId s) (isEmbedded s) w (hasCompleted s)).
Definition setHasCompleted (b : bool) : M unit :=
  modify (fun s => mkState (inputs s) (context s) (status s) (renderMode s)
                     (runId s) (isEmbedded s) (parentWindow s) b).

(** *** The hook's functions *)

Definition SDK_VERSION : string := "1.0.0".

(** [{ type, payload }] *)
Definition envelope (type : string) (payload : gmap string value) : value :=
  Obj (<["type" := Str type]> (<["payload" := Obj payload]> ∅)).

Section Hook.

Variable o : Options.

Definition debugLog (message : string) (data : value) : M unit :=
  if debug o
  then emit (ConsoleLog ("[BrixelSDK] " ++ message) (coalesce data (Str "")))
  else ret tt.

Definition postToParent (message : value) : M unit :=
  s ← getState;
  match parentWindow s with
  | Some w =>
      debugLog "Sending message to parent:" message;;
      emit (PostMessage w message (targetOrigin o))
  | None => debugLog "Cannot send message - no parent window" Undefined
  end.

(** The four functions the hook returns are [useCallback] closures: each
    render makes them anew over the [runId] of that render, the first
    argument here, which a function kept from an earlier render goes on
    using.  [hasCompleted] is a ref and is read from the state when the
    function is called. *)
Definition complete (runId : value) (output : value) : M unit :=
  s ← getState;
  if hasCompleted s
  then debugLog "Already completed, ignoring duplicate complete call" Undefined
  else if negb (truthy runId)
  then emit (ConsoleError "[BrixelSDK] Cannot complete - no runId")
  else
    setHasCompleted true;;
    setStatus completed;;
    postToParent (envelope "BRIXEL_COMPLETE"
                    (<["runId" := runId]> (<["output" := output]> ∅)));;
    debugLog "Task completed with output:" output.

Definition cancel (runId : value) (reason : value) : M unit :=
  s ← getState;
  if hasCompleted s
  then debugLog "Already completed, ignoring cancel call" Undefined
  else if negb (truthy runId)
  then emit (ConsoleError "[BrixelSDK] Cannot cancel - no runId")
  else
    setHasCompleted true;;
    setStatus cancelled;;
    postToParent (envelope "BRIXEL_CANCEL"
                    (<["runId" := runId]> (<["reason" := reason]> ∅)));;
    debugLog "Task cancelled:" reason.

Definition setHeight (runId : value) (height : value) : M unit :=
  if negb (truthy runId) then ret tt
  else
    postToParent (envelope "BRIXEL_RESIZE"
                    (<["runId" := runId]> (<["height" := height]> ∅)));;
    debugLog "Resize requested:" height.

Definition log (runId : value) (level : string) (message : string)
    (data : value) : M unit :=
  if negb (truthy runId) then ret tt
  else
    postToParent (envelope "BRIXEL_LOG"
                    (<["runId" := runId]>
                       (<["level" := Str level]>
                          (<["message" := Str message]>
                             (<["data" := data]> ∅))))).

(** Destructuring [message.payload]: a TypeError when it is null or
    undefined. *)
Definition destructure (payload : value) : M value :=
  if nullish payload
  then throw (Error "TypeError" "Cannot destructure 'message.payload'")
  else ret payload.

(** The listener registered for [message] events; [data] is
    [event.data]. *)
Definition handleMessage (data : value) : M unit :=
  let message := data in
  if negb (truthy message)
     || negb (String.eqb (typeof message) "object")
     || negb (truthy (get message "type"))
  then ret tt
  else
    match get message "type" with
    | Str type =>
        if negb (String.prefix "BRIXEL_" type) then ret tt
        else
          debugLog "Received message:" message;;
          if String.eqb type "BRIXEL_INIT" then
            payload ← destructure (get message "payload");
            let newRunId := get payload "runId" in
            let newInputs := get payload "inputs" in
            let newContext := get payload "context" in
            let mode := get payload "renderMode" in
            setRunId newRunId;;
            setInputs (fun _ => newInputs);;
            setContext newContext;;
            setRenderMode mode;;
            setStatus ready;;
            setHasCompleted false;;
            debugLog "Initialized with:"
              (Obj (<["runId" := newRunId]>
                      (<["inputs" := newInputs]>
                         (<["context" := newContext]> ∅))))
          else if String.eqb type "BRIXEL_UPDATE_INPUTS" then
            payload ← destructure (get message "payload");
            let updatedInputs := get payload "inputs" in
            setInputs (fun prev =>
                         if truthy prev then spread2 prev updatedInputs
                         else updatedInputs);;
            (if onInputsUpdate o then emit (CallInputsUpdate updatedInputs)
             else ret tt);;
            debugLog "Inputs updated:" updatedInputs
          else if String.eqb type "BRIXEL_DESTROY" then
            (if onDestroy o then emit CallDestroy else ret tt);;
            debugLog "Destroy received" Undefined
          else ret tt
    | _ =>
        (* a truthy [type] that is not a string has no [startsWith] *)
        throw (Error "TypeError" "message.type.startsWith is not a function")
    end.

(** The first effect of the hook: it sets the window to post to, registers
    the listener and signals READY. *)
Definition mountEffect : M unit :=
  s ← getState;
  setParentWindow (Some (if isEmbedded s then parent else self));;
  (if negb (isEmbedded s)
   then debugLog
          "Not in iframe, SDK will work in standalone mode (dev tools compatible)"
          Undefined
   else ret tt);;
  postToParent (envelope "BRIXEL_READY" (<["version" := Str SDK_VERSION]> ∅));;
  debugLog "SDK initialized, READY sent" Undefined.

End Hook.

(** The state of the first render; [embedded] is the result of
    [isInIframe()]. *)
Definition initialState (embedded : bool) : State :=
  {| inputs := Null; context := Null; status := initializing;
     renderMode := Null; runId := Null; isEmbedded := embedded;
     parentWindow := None; hasCompleted := false |}.

(** *** Sessions: the hook driven by its environment *)

(** What can happen to a mounted hook: the effect runs (again, when its
    dependencies change), the window delivers a message event, or the
    embedding application calls one of the functions the latest render
    returned.  (Calls through a function kept from an earlier render are
    not events; they are stated on [complete], [cancel], [setHeight] and
    [log] themselves, whose first argument is the run id of their
    render.) *)
Inductive Event : Type :=
| Mount
| Message (data : value)
| Complete (output : value)
| Cancel (reason : value)
| SetHeight (height : value)
| Log (level message : string) (data : value).

Definition step (o : Options) (e : Event) : M unit :=
  match e with
  | Mount => mountEffect o
  | Message data => handleMessage o data
  | Complete output => fun s => complete o (runId s) output s
  | Cancel reason => fun s => cancel o (runId s) reason s
  | SetHeight height => fun s => setHeight o (runId s) height s
  | Log level message data => fun s => log o (runId s) level message data s
  end.

(** Events are handled one after the other, each to its end; an exception
    that escapes a listener is reported by the event loop and the next
    event is handled from the state the listener left. *)
Fixpoint runEvents (o : Options) (es : list Event) (s : State)
  : State * list Effect :=
  match es with
  | [] => (s, [])
  | e :: es' =>
      let r := step o e s in
      let rest := runEvents o es' (store r) in
      (rest.1, (trace r ++ rest.2)%list)
  end.

(** A session: first render, first effect, then the events. *)
Definition session (o : Options) (embedded : bool) (es : list Event)
  : State * list Effect :=
  runEvents o (Mount :: es) (initialState embedded).

(** The envelopes posted and the callbacks called in a trace. *)
Definition posts (t : list Effect) : list (Window * value * string) :=
  omap (fun e => match e with
                 | PostMessage w m origin => Some (w, m, origin)
                 | _ => None
                 end) t.

Definition isCallback (e : Effect) : bool :=
  match e with
  | CallInputsUpdate _ | CallDestroy => true
  | _ => false
  end.

Definition callbacks (t : list Effect) : list Effect := List.filter isCallback t.

(** ** Remote task invocation ([executeTask.ts]) *)

Module Client.

(** [ExecuteTaskParams] of [types.ts]; an optional field that is absent is
    [None]. *)
Record ExecuteTaskParams : Type := mkParams {
  taskUuid : string;
  inputs : value;
  conversationId : option string;
  apiToken : option string;
  apiBaseUrl : option string
}.

(** The [credentials] option of [fetch]. *)
Inductive Credentials : Type :=
| same_origin
| include.

(** The arguments of the one [fetch] call.  [body] is the object given to
    [JSON.stringify]. *)
Record Request : Type := mkRequest {
  url : string;
  method : string;
  headers : gmap string string;
  credentials : Credentials;
  body : value
}.

(** What the code uses of a [Response]: its status, and what
    [response.json()] settles to, the parsed body or the error it rejects
    with when the body is not JSON. *)
Record Response : Type := mkResponse {
  status : Z;
  json : thrown + value
}.

(** [response.ok], as the Fetch standard defines it. *)
Definition ok (r : Response) : bool := (200 <=? status r)%Z && (status r <=? 299)%Z.

(** [ExecuteTaskResponse]: [{ success: true, data }] or
    [{ success: false, error: { code, message, details } }].  [details] is a
    body value or, in the [catch] clause, the caught thing itself. *)
Inductive ExecuteTaskResponse : Type :=
| Success (data : value)
| Failure (code message : value) (details : value + thrown).

(** Truthiness of an optional string: absent and empty are both falsy. *)
Definition given (o : option string) : bool :=
  match o with
  | Some s => negb (String.eqb s "")
  | None => false
  end.

(** [window] is [None] where [typeof window === 'undefined'], and carries
    [window.location.hostname] otherwise. *)
Definition getApiBaseUrl (window : option string) : string :=
  match window with
  | Some hostname =>
      if String.eqb hostname "localhost" || String.eqb hostname "127.0.0.1"
      then "http://localhost:8000/backoffice/ui-components"
      else "https://api.brixel.ai/backoffice/ui-components"
  | None => "https://api.brixel.ai/backoffice/ui-components"
  end.

(** [apiBaseUrl || getApiBaseUrl()] *)
Definition baseUrl (window : option string) (params : ExecuteTaskParams) : string :=
  if given (apiBaseUrl params) then default "" (apiBaseUrl params)
  else getApiBaseUrl window.

(** The request the [try] block builds and hands to [fetch]. *)
Definition fetchRequest (window : option string) (params : ExecuteTaskParams)
  : Request :=
  let headers0 : gmap string string := {[ "Content-Type" := "application/json" ]} in
  let headers1 :=
    if given (apiToken params)
    then <["Authorization" := "Bearer " ++ default "" (apiToken params)]> headers0
    else headers0 in
  let headers2 :=
    if given (conversationId params)
    then <["x-conversation-id" := default "" (conversationId params)]> headers1
    else headers1 in
  {| url := baseUrl window params ++ "/execute_task";
     method := "POST";
     headers := headers2;
     credentials := if given (apiToken params) then same_origin else include;
     body := Obj (<["task_uuid" := Str (taskUuid params)]>
                    (<["inputs" := inputs params]> ∅)) |}.

(** The [catch] clause. *)
Definition caught (e : thrown) : ExecuteTaskResponse :=
  Failure (Str "NETWORK_ERROR")
    (Str (match e with
          | Error _ message => message
          | Raised _ => "Unknown error occurred"
          end))
    (inr e).

Section Network.

(** The network: what [await fetch(...)] gives for a request, a response
    or the error the promise rejects with. *)
Variable fetch : Request -> thrown + Response.

Definition executeTask (window : option string) (params : ExecuteTaskParams)
  : ExecuteTaskResponse :=
  match fetch (fetchRequest window params) with
  | inl e => caught e
  | inr response =>
      match json response with
      | inl e => caught e
      | inr data =>
          if negb (ok response) then
            match member data "code" with
            | inl e => caught e
            | inr code =>
                Failure
                  (or code (Str ("HTTP_" ++ pretty (status response))))
                  (or (get data "message")
                      (Str ("Request failed with status "
                            ++ pretty (status response))))
                  (inl (or (get data "details") data))
            end
          else Success data
      end
  end.

(** [createExecuteTask(contextAuth)]: the three fields of the call's
    parameters are replaced by those of the bound context. *)
Definition createExecuteTask
    (contextAuth : option (option string * option string * option string))
    (window : option string) (params : ExecuteTaskParams) : ExecuteTaskResponse :=
  executeTask window
    {| taskUuid := taskUuid params;
       inputs := inputs params;
       apiToken := '(t, _, _) ← contextAuth; t;
       conversationId := '(_, c, _) ← contextAuth; c;
       apiBaseUrl := '(_, _, b) ← contextAuth; b |}.

End Network.

End Client.

(** ** Development tools ([devTools.ts]) *)

(** [RenderMode] of [types.ts], and the string it is on the wire. *)
Inductive RenderMode : Type :=
| display
| interaction.

Definition renderModeValue (mode : RenderMode) : value :=
  match mode with
  | display => Str "display"
  | interaction => Str "interaction"
  end.

Module DevTools.

Definition mockContext : value :=
  Obj (<["runId" := Str "dev-run-001"]>
      (<["stepId" := Str "dev-step-001"]>
      (<["user" := Obj (<["id" := Str "dev-user-001"]>
                       (<["name" := Str "Dev User"]>
                       (<["email" := Str "dev@example.com"]> ∅)))]>
      (<["organization" := Obj (<["id" := Str "dev-org-001"]>
                               (<["name" := Str "Dev Organization"]> ∅))]>
      (<["theme" := Str "light"]>
      (<["locale" := Str "en-US"]>
      (<["capabilities" := Obj (<["resize" := Bool true]>
                               (<["fullscreen" := Bool true]>
                               (<["fileUpload" := Bool false]> ∅)))]> ∅))))))).

(** The callbacks a tool can be given. *)
Inductive Callback : Type :=
| Listener
| OnReady
| OnComplete
| OnCancel
| OnResize
| OnLog
| OnError.

(** What the tools do: post a message to the window itself, write to the
    console, call a callback. *)
Inductive Effect : Type :=
| Post (message : value) (origin : string)
| Warn (text : string)
| Print (text : string) (data : value)
| Call (callback : Callback) (args : list value).

(** The options of [simulateBrixelInit]; an absent one is [None] and takes
    the default of the destructuring. *)
Record SimulateOptions : Type := mkSimulateOptions {
  runId : option string;
  renderMode : option RenderMode;
  context : option (gmap string value);
  delay : option Z
}.

(** What [setTimeout] is given: the delay and what the callback does. *)
Record Scheduled : Type := mkScheduled {
  after : Z;
  action : list Effect
}.

Definition simulateBrixelInit (inputs : value) (options : SimulateOptions)
  : Scheduled :=
  let runId := default "dev-run-001" (runId options) in
  let renderMode := default interaction (renderMode options) in
  let context := default ∅ (context options) in
  let delay := default 100%Z (delay options) in
  let message :=
    envelope "BRIXEL_INIT"
      (<["runId" := Str runId]>
         (<["inputs" := inputs]>
            (<["context" := spread2 mockContext (Obj context)]>
               (<["renderMode" := renderModeValue renderMode]> ∅)))) in
  {| after := delay;
     action := [Post message "*";
                Print "[BrixelDevTools] Simulated INIT message sent:" message] |}.

(** [type?.startsWith("BRIXEL_")]: undefined, hence falsy, on a null or
    undefined [type]; a TypeError on any other value that is not a
    string, for it has no such method. *)
Definition startsWithBrixel (type : value) : thrown + bool :=
  match type with
  | Undefined | Null => inr false
  | Str t => inr (String.prefix "BRIXEL_" t)
  | _ => inl (Error "TypeError" "message.type?.startsWith is not a function")
  end.

(** The listener [listenToUITaskMessages] registers; [data] is
    [event.data]. *)
Definition listenToUITaskMessages (data : value) : thrown + list Effect :=
  let message := data in
  if truthy message && String.eqb (typeof message) "object" then
    match startsWithBrixel (get message "type") with
    | inl e => inl e
    | inr true => inr [Call Listener [message]]
    | inr false => inr []
    end
  else inr [].

(** The callbacks given to [createMockBrixelHost], by whether each is
    there. *)
Record HostOptions : Type := mkHostOptions {
  onReady : bool;
  onComplete : bool;
  onCancel : bool;
  onResize : bool;
  onLog : bool;
  onError : bool
}.

(** The mock host: its [currentRunId], and whether its listener is still
    registered. *)
Record Host : Type := mkHost {
  currentRunId : value;
  listening : bool
}.

Definition createMockBrixelHost : Host :=
  {| currentRunId := Null; listening := true |}.

(** [message.payload?.k] *)
Definition payloadField (message : value) (k : string) : value :=
  if nullish (get message "payload") then Undefined
  else get (get message "payload") k.

(** [callback?.(args)] *)
Definition optionalCall (registered : bool) (callback : Callback)
    (args : list value) : list Effect :=
  if registered then [Call callback args] else [].

(** The host's listener. *)
Definition handleMessage (options : HostOptions) (data : value)
  : thrown + list Effect :=
  let message := data in
  if negb (truthy message) || negb (String.eqb (typeof message) "object")
  then inr []
  else
    match startsWithBrixel (get message "type") with
    | inl e => inl e
    | inr false => inr []
    | inr true =>
        match get message "type" with
        | Str type =>
            if String.eqb type "BRIXEL_READY" then
              inr (optionalCall (onReady options) OnReady
                     [payloadField message "version"])
            else if String.eqb type "BRIXEL_COMPLETE" then
              inr (optionalCall (onComplete options) OnComplete
                     [payloadField message "output"])
            else if String.eqb type "BRIXEL_CANCEL" then
              inr (optionalCall (onCancel options) OnCancel
                     [payloadField message "reason"])
            else if String.eqb type "BRIXEL_RESIZE" then
              inr (optionalCall (onResize options) OnResize
                     [payloadField message "height"])
            else if String.eqb type "BRIXEL_LOG" then
              inr (optionalCall (onLog options) OnLog
                     [payloadField message "level";
                      payloadField message "message";
                      payloadField message "data"])
            else if String.eqb type "BRIXEL_ERROR" then
              inr (optionalCall (onError options) OnError
                     [payloadField message "error"])
            else inr []
        | _ => inr []
        end
    end.

(** A message event of the window reaches the host's listener as long as
    it is registered. *)
Definition deliver (options : HostOptions) (host : Host) (data : value)
  : thrown + list Effect :=
  if listening host then handleMessage options data else inr [].

(** The methods of the host object; an absent argument of [init] is [None]
    and takes the parameter's default. *)
Definition init (inputs : value) (runId : option string)
    (renderMode : option RenderMode) (host : Host) : Host * list Effect :=
  let runId := default "mock-run-001" runId in
  let renderMode := default interaction renderMode in
  ({| currentRunId := Str runId; listening := listening host |},
   [Post (envelope "BRIXEL_INIT"
            (<["runId" := Str runId]>
               (<["inputs" := inputs]>
                  (<["context" := mockContext]>
                     (<["renderMode" := renderModeValue renderMode]> ∅)))))
      "*"]).

Definition updateInputs (inputs : value) (host : Host) : Host * list Effect :=
  if negb (truthy (currentRunId host))
  then (host, [Warn "[MockHost] Cannot update inputs - no active run"])
  else (host,
        [Post (envelope "BRIXEL_UPDATE_INPUTS"
                 (<["runId" := currentRunId host]> (<["inputs" := inputs]> ∅)))
           "*"]).

Definition destroy (host : Host) : Host * list Effect :=
  ({| currentRunId := Null; listening := false |},
   if truthy (currentRunId host)
   then [Post (envelope "BRIXEL_DESTROY" (<["runId" := currentRunId host]> ∅)) "*"]
   else []).

Definition updateTheme (theme : string) (host : Host) : Host * list Effect :=
  if negb (truthy (currentRunId host))
  then (host, [Warn "[MockHost] Cannot update theme - no active run"])
  else (host,
        [Post (envelope "BRIXEL_UPDATE_THEME"
                 (<["runId" := currentRunId host]> (<["theme" := Str theme]> ∅)))
           "*"]).

Definition updateLocale (locale : string) (host : Host) : Host * list Effect :=
  if negb (truthy (currentRunId host))
  then (host, [Warn "[MockHost] Cannot update locale - no active run"])
  else (host,
        [Post (envelope "BRIXEL_UPDATE_LOCALE"
                 (<["runId" := currentRunId host]> (<["locale" := Str locale]> ∅)))
           "*"]).

(** The calls an application makes on a host object. *)
Inductive Method : Type :=
| Init (inputs : value) (runId : option string) (renderMode : option RenderMode)
| UpdateInputs (inputs : value)
| Destroy
| UpdateTheme (theme : string)
| UpdateLocale (locale : string).

Definition invoke (m : Method) : Host -> Host * list Effect :=
  match m with
  | Init inputs runId renderMode => init inputs runId renderMode
  | UpdateInputs inputs => updateInputs inputs
  | Destroy => destroy
  | UpdateTheme theme => updateTheme theme
  | UpdateLocale locale => updateLocale locale
  end.

Fixpoint invokeAll (ms : list Method) (host : Host) : Host * list Effect :=
  match ms with
  | [] => (host, [])
  | m :: ms' =>
      let r := invoke m host in
      let rest := invokeAll ms' r.1 in
      (rest.1, (r.2 ++ rest.2)%list)
  end.

(** The messages posted in a list of effects. *)
Definition posted (t : list Effect) : list value :=
  omap (fun e => match e with
                 | Post message _ => Some message
                 | _ => None
                 end) t.

End DevTools.

(** What a mock host answers to the envelope an event makes the hook
    post. *)
Definition heard (options : DevTools.HostOptions) (e : Event)
  : list DevTools.Effect :=
  match e with
  | Mount =>
      DevTools.optionalCall (DevTools.onReady options) DevTools.OnReady
        [Str SDK_VERSION]
  | Message _ => []
  | Complete output =>
      DevTools.optionalCall (DevTools.onComplete options) DevTools.OnComplete
        [output]
  | Cancel reason =>
      DevTools.optionalCall (DevTools.onCancel options) DevTools.OnCancel [reason]
  | SetHeight height =>
      DevTools.optionalCall (DevTools.onResize options) DevTools.OnResize [height]
  | Log level message data =>
      DevTools.optionalCall (DevTools.onLog options) DevTools.OnLog
        [Str level; Str message; data]
  end.

(** * Properties *)

(** ** The handlers, equation by equation *)

(** The trace of one [debugLog] call. *)
Definition logged (o : Options) (text : string) (data : value) : list Effect :=
  if debug o
  then [ConsoleLog ("[BrixelSDK] " ++ text) (coalesce data (Str ""))]
  else [].

(** The states a successful [complete] or [cancel] leaves. *)
Definition finished (t : TaskStatus) (s : State) : State :=
  {| inputs := inputs s; context := context s; status := t;
     renderMode := renderMode s; runId := runId s; isEmbedded := isEmbedded s;
     parentWindow := parentWindow s; hasCompleted := true |}.

(** The state an INIT with the given payload leaves. *)
Definition initialized (payload : value) (s : State) : State :=
  {| inputs := get payload "inputs"; context := get payload "context";
     status := ready; renderMode := get payload "renderMode";
     runId := get payload "runId"; isEmbedded := isEmbedded s;
     parentWindow := parentWindow s; hasCompleted := false |}.

(** The state with its inputs replaced. *)
Definition withInputs (v : value) (s : State) : State :=
  {| inputs := v; context := context s; status := status s;
     renderMode := renderMode s; runId := runId s; isEmbedded := isEmbedded s;
     parentWindow := parentWindow s; hasCompleted := hasCompleted s |}.

(** The state with the window to post to set, as the first effect sets it. *)
Definition mounted (s : State) : State :=
  {| inputs := inputs s; context := context s; status := status s;
     renderMode := renderMode s; runId := runId s; isEmbedded := isEmbedded s;
     parentWindow := Some (if isEmbedded s then parent else self);
     hasCompleted := hasCompleted s |}.

(** Which window goes with which mode. *)
Definition embeddedIn (w : Window) : bool :=
  match w with
  | parent => true
  | self => false
  end.

(** The two terminal calls, the status each one sets and the envelope each
    one posts for a run. *)
Inductive Call : Type :=
| ToComplete (output : value)
| ToCancel (reason : value).

Definition eventOf (c : Call) : Event :=
  match c with
  | ToComplete output => Complete output
  | ToCancel reason => Cancel reason
  end.

Definition verdict (c : Call) : TaskStatus :=
  match c with
  | ToComplete _ => completed
  | ToCancel _ => cancelled
  end.

Definition signal (run : value) (c : Call) : value :=
  match c with
  | ToComplete output =>
      envelope "BRIXEL_COMPLETE" (<["runId" := run]> (<["output" := output]> ∅))
  | ToCancel reason =>
      envelope "BRIXEL_CANCEL" (<["runId" := run]> (<["reason" := reason]> ∅))
  end.

(** A terminal call through the function of a render whose run id was
    [captured], and a sequence of such calls, each through a function of
    its own render. *)
Definition call (o : Options) (captured : value) (c : Call) : M unit :=
  match c with
  | ToComplete output => complete o captured output
  | ToCancel reason => cancel o captured reason
  end.

Fixpoint runCalls (o : Options) (cs : list (value * Call)) (s : State)
  : State * list Effect :=
  match cs with
  | [] => (s, [])
  | (captured, c) :: cs' =>
      let r := call o captured c s in
      let rest := runCalls o cs' (store r) in
      (rest.1, (trace r ++ rest.2)%list)
  end.

(** What the terminal calls report on the console when no run is set. *)
Definition complaint (c : Call) : Effect :=
  match c with
  | ToComplete _ => ConsoleError "[BrixelSDK] Cannot complete - no runId"
  | ToCancel _ => ConsoleError "[BrixelSDK] Cannot cancel - no runId"
  end.

(** What holds of every state a session reaches: the completion flag is
    only ever set for a run that has an id. *)
Definition guarded (s : State) : Prop :=
  hasCompleted s = true -> truthy (runId s) = true.

(** *** Vocabulary of the further properties *)

(** The envelopes of the mount effect, of [setHeight] and of [log]. *)
Definition readyEnvelope : value :=
  envelope "BRIXEL_READY" (<["version" := Str SDK_VERSION]> ∅).

Definition resizeEnvelope (run height : value) : value :=
  envelope "BRIXEL_RESIZE" (<["runId" := run]> (<["height" := height]> ∅)).

Definition logEnvelope (run : value) (level message : string) (data : value)
  : value :=
  envelope "BRIXEL_LOG"
    (<["runId" := run]>
       (<["level" := Str level]>
          (<["message" := Str message]> (<["data" := data]> ∅)))).

(** What an event posts from a state, and to which window. *)
Definition outgoing (o : Options) (s : State) (e : Event)
  : list (Window * value * string) :=
  match e with
  | Mount => [(if isEmbedded s then parent else self, readyEnvelope, targetOrigin o)]
  | Message _ => []
  | Complete output =>
      match parentWindow s with
      | Some w =>
          if negb (hasCompleted s) && truthy (runId s)
          then [(w, signal (runId s) (ToComplete output), targetOrigin o)] else []
      | None => []
      end
  | Cancel reason =>
      match parentWindow s with
      | Some w =>
          if negb (hasCompleted s) && truthy (runId s)
          then [(w, signal (runId s) (ToCancel reason), targetOrigin o)] else []
      | None => []
      end
  | SetHeight height =>
      match parentWindow s with
      | Some w =>
          if truthy (runId s)
          then [(w, resizeEnvelope (runId s) height, targetOrigin o)] else []
      | None => []
      end
  | Log level message data =>
      match parentWindow s with
      | Some w =>
          if truthy (runId s)
          then [(w, logEnvelope (runId s) level message data, targetOrigin o)]
          else []
      | None => []
      end
  end.

(** The task-to-host envelopes the hook is meant to send: READY, or one of
    COMPLETE, CANCEL, RESIZE and LOG tagged with a run id. *)
Definition catalogued (m : value) : bool :=
  match get m "type" with
  | Str t =>
      String.eqb t "BRIXEL_READY"
      || (String.eqb t "BRIXEL_COMPLETE" || String.eqb t "BRIXEL_CANCEL"
          || String.eqb t "BRIXEL_RESIZE" || String.eqb t "BRIXEL_LOG")
         && truthy (get (get m "payload") "runId")
  | _ => false
  end.

(** The envelopes that end a run. *)
Definition terminal (m : value) : bool :=
  match get m "type" with
  | Str t => String.eqb t "BRIXEL_COMPLETE" || String.eqb t "BRIXEL_CANCEL"
  | _ => false
  end.

Definition terminalPosts (t : list Effect) : list value :=
  List.filter terminal ((fun p : Window * value * string => p.1.2) <$> posts t).

(** The events that deliver an INIT message. *)
Definition isInit (e : Event) : bool :=
  match e with
  | Message data =>
      match get data "type" with
      | Str t => String.eqb t "BRIXEL_INIT"
      | _ => false
      end
  | _ => false
  end.

(** Whether a terminal call would still go through. *)
Definition open (s : State) : bool := negb (hasCompleted s) && truthy (runId s).

(** What the exposed status says about the rest of the state. *)
Definition coherent (s : State) : Prop :=
  (hasCompleted s = true <-> status s = completed \/ status s = cancelled)
  /\ status s <> error
  /\ (status s = initializing ->
      runId s = Null /\ context s = Null /\ renderMode s = Null).

(** The second effect of the hook: while a run id is set and the hook is
    embedded, a [ResizeObserver] on the document body calls [setHeight]
    with the height of every entry it reports. *)
Definition autoResize (o : Options) (heights : list value) : M unit :=
  s ← getState;
  if negb (truthy (runId s)) || negb (isEmbedded s) then ret tt
  else foldr (fun height rest => setHeight o (runId s) height;; rest) (ret tt)
         heights.

(** Closes an inequality between sums of conditionals. *)
Ltac by_units :=
  repeat match goal with
         | |- context [if ?b then _ else _] => destruct b
         end;
  cbn [length Nat.add]; lia.

(** *** Sample data *)

(** An INIT message for the given run, with inputs [{ a: 1, b: 2 }]. *)
Definition exampleInit (run : string) : value :=
  envelope "BRIXEL_INIT"
    (<["runId" := Str run]>
       (<["inputs" := Obj (<["a" := Num 1]> (<["b" := Num 2]> ∅))]>
          (<["context" := Obj (<["theme" := Str "light"]>
                                 (<["locale" := Str "en-US"]> ∅))]>
             (<["renderMode" := Str "interaction"]> ∅)))).

(** An UPDATE_INPUTS message with the partial inputs [{ b: 3 }]. *)
Definition exampleUpdate : value :=
  envelope "BRIXEL_UPDATE_INPUTS"
    (<["runId" := Str "run-1"]> (<["inputs" := Obj (<["b" := Num 3]> ∅)]> ∅)).

(** An embedded hook after the INIT of run-1, and after that run was
    completed. *)
Definition exampleReady : State :=
  (session defaultOptions true [Message (exampleInit "run-1")]).1.

Definition exampleDone : State :=
  (session defaultOptions true
     [Message (exampleInit "run-1"); Complete (Str "A")]).1.

(** Parameters of a remote invocation with the given token, conversation
    id and base URL override. *)
Definition exampleParams (token conversation override : option string)
  : Client.ExecuteTaskParams :=
  {| Client.taskUuid := "task-123-456";
     Client.inputs := Obj (<["name" := Str "John"]> ∅);
     Client.conversationId := conversation;
     Client.apiToken := token;
     Client.apiBaseUrl := override |}.

Lemma debugLog_run o text data s :
  debugLog o text data s = mkRun (Normal tt) s (logged o text data).
Proof. unfold debugLog, logged. by destruct (debug o). Qed.

Lemma posts_logged o text data : posts (logged o text data) = [].
Proof. unfold logged. by destruct (debug o). Qed.

Lemma callbacks_logged o text data : callbacks (logged o text data) = [].
Proof. unfold logged. by destruct (debug o). Qed.

Lemma posts_app t1 t2 : posts (t1 ++ t2) = (posts t1 ++ posts t2)%list.
Proof. unfold posts. apply omap_app. Qed.

Lemma callbacks_app t1 t2 :
  callbacks (t1 ++ t2) = (callbacks t1 ++ callbacks t2)%list.
Proof. unfold callbacks. apply List.filter_app. Qed.

Lemma postToParent_run o message s w :
  parentWindow s = Some w ->
  postToParent o message s =
    mkRun (Normal tt) s
      (logged o "Sending message to parent:" message
       ++ [PostMessage w message (targetOrigin o)])%list.
Proof.
  intros Hw. unfold postToParent, mbind, M_bind, bind, getState. cbn.
  rewrite Hw. cbn. rewrite debugLog_run. by cbn.
Qed.

(** The three outcomes of a terminal call, for the function of any
    render. *)
Lemma call_any_done o captured c s :
  hasCompleted s = true ->
  exists text, call o captured c s = mkRun (Normal tt) s (logged o text Undefined).
Proof.
  intros Hc. destruct c; cbn; unfold complete, cancel, mbind, M_bind, bind, getState;
    cbn; rewrite Hc, debugLog_run; eauto.
Qed.

Lemma call_refused o captured c s :
  hasCompleted s = false -> truthy captured = false ->
  call o captured c s = mkRun (Normal tt) s [complaint c].
Proof.
  intros Hc Hr. destruct c; cbn; unfold complete, cancel, mbind, M_bind, bind, getState;
    cbn; by rewrite Hc, Hr.
Qed.

Lemma call_succeeds o captured c s w :
  parentWindow s = Some w -> hasCompleted s = false -> truthy captured = true ->
  exists text data,
    call o captured c s =
      mkRun (Normal tt) (finished (verdict c) s)
        (logged o "Sending message to parent:" (signal captured c)
         ++ [PostMessage w (signal captured c) (targetOrigin o)]
         ++ logged o text data)%list.
Proof.
  intros Hw Hc Hr.
  destruct c; cbn; unfold complete, cancel, mbind, M_bind, bind, getState; cbn;
    rewrite Hc, Hr; cbn;
    unfold setHasCompleted, setStatus, modify; cbn;
    (erewrite postToParent_run by (cbn; exact Hw)); cbn;
    rewrite debugLog_run; cbn; do 2 eexists; unfold finished;
    rewrite <- app_assoc; reflexivity.
Qed.

(** An event calls the function of the latest render. *)
Lemma step_call o c s : step o (eventOf c) s = call o (runId s) c s.
Proof. by destruct c. Qed.

Lemma call_done o c s :
  hasCompleted s = true ->
  exists text, step o (eventOf c) s = mkRun (Normal tt) s (logged o text Undefined).
Proof. rewrite step_call. apply call_any_done. Qed.

Lemma call_no_run o c s :
  hasCompleted s = false -> truthy (runId s) = false ->
  step o (eventOf c) s = mkRun (Normal tt) s [complaint c].
Proof. rewrite step_call. apply call_refused. Qed.

Lemma call_first o c s w :
  parentWindow s = Some w -> hasCompleted s = false -> truthy (runId s) = true ->
  exists text data,
    step o (eventOf c) s =
      mkRun (Normal tt) (finished (verdict c) s)
        (logged o "Sending message to parent:" (signal (runId s) c)
         ++ [PostMessage w (signal (runId s) c) (targetOrigin o)]
         ++ logged o text data)%list.
Proof. rewrite step_call. apply call_succeeds. Qed.

(** ** Completion happens at most once *)

Lemma runCalls_done o cs s :
  hasCompleted s = true ->
  (runCalls o cs s).1 = s
  /\ posts (runCalls o cs s).2 = []
  /\ callbacks (runCalls o cs s).2 = [].
Proof.
  intros Hc. induction cs as [|[captured c] cs IH]; [done|].
  destruct (call_any_done o captured c s Hc) as [text E].
  cbn [runCalls fst snd]. rewrite E. cbn [store trace].
  rewrite posts_app, callbacks_app, posts_logged, callbacks_logged.
  exact IH.
Qed.

Lemma runCalls_open o cs s w :
  parentWindow s = Some w -> hasCompleted s = false ->
  match List.find (fun p : value * Call => truthy p.1) cs with
  | Some (captured, c) =>
      (runCalls o cs s).1 = finished (verdict c) s
      /\ posts (runCalls o cs s).2 = [(w, signal captured c, targetOrigin o)]
  | None => (runCalls o cs s).1 = s /\ posts (runCalls o cs s).2 = []
  end
  /\ callbacks (runCalls o cs s).2 = [].
Proof.
  intros Hw Hc. induction cs as [|[captured c] cs IH]; [done|].
  cbn [List.find fst runCalls snd].
  destruct (truthy captured) eqn:Hr.
  - destruct (call_succeeds o captured c s w Hw Hc Hr) as (text & data & E).
    rewrite E. cbn [store trace].
    destruct (runCalls_done o cs (finished (verdict c) s) eq_refl) as (-> & P & C).
    rewrite !posts_app, !callbacks_app, !posts_logged, !callbacks_logged, P, C.
    done.
  - rewrite (call_refused o captured c s Hc Hr). cbn [store trace].
    rewrite posts_app, callbacks_app.
    destruct IH as [IH ->]. split; [| by destruct c].
    destruct (List.find _ cs) as [[captured' c']|];
      destruct IH as [-> ->]; by destruct c.
Qed.

Lemma call_keeps_run o captured c s : runId (store (call o captured c s)) = runId s.
Proof.
  destruct (hasCompleted s) eqn:Hc.
  - by destruct (call_any_done o captured c s Hc) as [text ->].
  - destruct (truthy captured) eqn:Hr; [| by rewrite call_refused].
    destruct c; cbn; unfold complete, cancel, mbind, M_bind, bind, getState; cbn;
      rewrite Hc, Hr; cbn; unfold postToParent, mbind, M_bind, bind, getState; cbn;
      destruct (parentWindow s); cbn; rewrite !debugLog_run; cbn;
      rewrite ?debugLog_run; reflexivity.
Qed.

Lemma runEvents_calls o cs s :
  runEvents o (eventOf <$> cs) s = runCalls o ((fun c => (runId s, c)) <$> cs) s.
Proof.
  revert s. induction cs as [|c cs IH]; intros s; [done |].
  cbn [fmap list_fmap runEvents runCalls]. rewrite step_call.
  specialize (IH (store (call o (runId s) c s))).
  rewrite call_keeps_run in IH. fold (@fmap list _ _ _ eventOf cs).
  fold (@fmap list _ _ _ (fun c => (runId s, c)) cs). by rewrite IH.
Qed.

(** C1. Whatever sequence of [complete] and [cancel] calls is made on a
    mounted hook, each through the function of any render, the sequence
    posts a terminal envelope and changes the state only through one call:
    the first one whose function has a run id, and only when [hasCompleted]
    is false at the start.  Then exactly one COMPLETE or CANCEL envelope
    goes out, tagged with the run id of that function, and the status
    becomes [completed] or [cancelled] accordingly.  In every other case
    nothing is posted and the state stays as it was.  Any call made once
    [hasCompleted] is set returns normally, posts nothing, calls no callback
    and leaves the state unchanged.  Calls made as events, through the
    functions of the latest render, are the sequences in which every
    function has the run id of the state.  (That the window to post to is
    set holds of every state of a session, see [session_reachable].) *)
Theorem complete_cancel_at_most_once
    (o : Options) (s : State) (w : Window) (cs : list (value * Call)) :
  parentWindow s = Some w ->
  let r := runCalls o cs s in
  match (if hasCompleted s then None
         else List.find (fun p : value * Call => truthy p.1) cs) with
  | Some (captured, c) =>
      r.1 = finished (verdict c) s
      /\ posts r.2 = [(w, signal captured c, targetOrigin o)]
  | None => r.1 = s /\ posts r.2 = []
  end
  /\ callbacks r.2 = []
  /\ (forall (captured : value) (c' : Call) (s' : State),
        hasCompleted s' = true ->
        completion (call o captured c' s') = Normal tt
        /\ store (call o captured c' s') = s'
        /\ posts (trace (call o captured c' s')) = []
        /\ callbacks (trace (call o captured c' s')) = [])
  /\ (forall latest : list Call,
        runEvents o (eventOf <$> latest) s
        = runCalls o ((fun c => (runId s, c)) <$> latest) s).
Proof.
  intros Hw r. subst r. split; [| split; [| split]].
  - destruct (hasCompleted s) eqn:Hc.
    + by destruct (runCalls_done o cs s Hc) as (? & ? & _).
    + exact (proj1 (runCalls_open o cs s w Hw Hc)).
  - destruct (hasCompleted s) eqn:Hc.
    + by destruct (runCalls_done o cs s Hc) as (_ & _ & ?).
    + exact (proj2 (runCalls_open o cs s w Hw Hc)).
  - intros captured c' s' Hc.
    destruct (call_any_done o captured c' s' Hc) as [text ->]. cbn.
    by rewrite posts_logged, callbacks_logged.
  - intros latest. apply runEvents_calls.
Qed.

Lemma complete_cancel_at_most_once_witness :
  parentWindow exampleReady = Some parent
  /\ (let r := runCalls defaultOptions
                 [(Null, ToComplete (Str "early")); (Str "run-1", ToComplete (Str "A"));
                  (Str "run-1", ToComplete (Str "B")); (Str "run-1", ToCancel Undefined)]
                 exampleReady in
      r.1 = finished completed exampleReady
      /\ posts r.2 = [(parent, signal (Str "run-1") (ToComplete (Str "A")), "*")])
  /\ store (call defaultOptions (Str "run-1") (ToCancel Undefined) exampleDone)
     = exampleDone.
Proof.
  pose proof (complete_cancel_at_most_once defaultOptions exampleReady parent
                [(Null, ToComplete (Str "early")); (Str "run-1", ToComplete (Str "A"));
                 (Str "run-1", ToComplete (Str "B")); (Str "run-1", ToCancel Undefined)]
                eq_refl) as (Hfirst & _ & Hlater & _).
  split; [reflexivity |]. split; [exact Hfirst |].
  exact (proj1 (proj2 (Hlater (Str "run-1") (ToCancel Undefined) exampleDone eq_refl))).
Defined.

(** ** The message listener, case by case *)

Lemma typed_is_object data t : get data "type" = Str t -> exists m, data = Obj m.
Proof. destruct data; try discriminate. eauto. Qed.

Lemma handleMessage_init o data s :
  get data "type" = Str "BRIXEL_INIT" ->
  nullish (get data "payload") = false ->
  handleMessage o data s =
    mkRun (Normal tt) (initialized (get data "payload") s)
      (logged o "Received message:" data
       ++ logged o "Initialized with:"
            (Obj (<["runId" := get (get data "payload") "runId"]>
                    (<["inputs" := get (get data "payload") "inputs"]>
                       (<["context" := get (get data "payload") "context"]> ∅)))))%list.
Proof.
  intros Ht Hp. destruct (typed_is_object _ _ Ht) as [m ->].
  unfold handleMessage. rewrite Ht.
  remember (get (Obj m) "payload") as payload.
  cbn -[get]. unfold destructure, mbind, M_bind, bind. rewrite Hp, !debugLog_run.
  cbn -[get]. rewrite !debugLog_run. cbn -[get].
  reflexivity.
Qed.

Lemma handleMessage_update o data s :
  get data "type" = Str "BRIXEL_UPDATE_INPUTS" ->
  nullish (get data "payload") = false ->
  handleMessage o data s =
    mkRun (Normal tt)
      (withInputs (if truthy (inputs s)
                   then spread2 (inputs s) (get (get data "payload") "inputs")
                   else get (get data "payload") "inputs") s)
      (logged o "Received message:" data
       ++ (if onInputsUpdate o
           then [CallInputsUpdate (get (get data "payload") "inputs")]
           else [])
       ++ logged o "Inputs updated:" (get (get data "payload") "inputs"))%list.
Proof.
  intros Ht Hp. destruct (typed_is_object _ _ Ht) as [m ->].
  unfold handleMessage. rewrite Ht.
  remember (get (Obj m) "payload") as payload.
  cbn -[get spread2]. unfold destructure, mbind, M_bind, bind. rewrite Hp, ?debugLog_run.
  cbn -[get spread2]. destruct (onInputsUpdate o); cbn -[get spread2];
    rewrite ?debugLog_run; cbn -[get spread2]; rewrite ?app_nil_r; reflexivity.
Qed.

Lemma handleMessage_destroy o data s :
  get data "type" = Str "BRIXEL_DESTROY" ->
  handleMessage o data s =
    mkRun (Normal tt) s
      (logged o "Received message:" data
       ++ (if onDestroy o then [CallDestroy] else [])
       ++ logged o "Destroy received" Undefined)%list.
Proof.
  intros Ht. destruct (typed_is_object _ _ Ht) as [m ->].
  unfold handleMessage. rewrite Ht.
  cbn -[get]. unfold mbind, M_bind, bind. rewrite ?debugLog_run.
  cbn -[get]. destruct (onDestroy o); cbn -[get];
    rewrite ?debugLog_run; cbn -[get]; rewrite ?app_nil_r; reflexivity.
Qed.

Lemma handleMessage_no_payload o data s t :
  get data "type" = Str t ->
  t = "BRIXEL_INIT" \/ t = "BRIXEL_UPDATE_INPUTS" ->
  nullish (get data "payload") = true ->
  handleMessage o data s =
    mkRun (Throw (Error "TypeError" "Cannot destructure 'message.payload'")) s
      (logged o "Received message:" data).
Proof.
  intros Ht Hcat Hp. destruct (typed_is_object _ _ Ht) as [m ->].
  unfold handleMessage. rewrite Ht.
  remember (get (Obj m) "payload") as payload.
  destruct Hcat as [-> | ->]; cbn -[get]; unfold destructure, mbind, M_bind, bind;
    rewrite Hp, ?debugLog_run; cbn -[get]; by rewrite app_nil_r.
Qed.

(** A message that fails the structure check is dropped at once. *)
Lemma handleMessage_malformed o data s :
  truthy data = false \/ typeof data <> "object" \/ truthy (get data "type") = false ->
  handleMessage o data s = mkRun (Normal tt) s [].
Proof.
  intros H. unfold handleMessage.
  destruct data as [| |b|n| |str|l|m]; try reflexivity.
  - by destruct b.
  - cbn [truthy typeof]. by destruct (negb (n =? 0)%Z).
  - cbn [truthy typeof]. by destruct (negb (str =? ""))%string.
  - destruct H as [H | [H | H]]; [discriminate H | exfalso; by apply H | ].
    by rewrite H.
Qed.

(** So is one whose [type] is a string without the reserved prefix. *)
Lemma handleMessage_foreign o data s t :
  get data "type" = Str t -> String.prefix "BRIXEL_" t = false ->
  handleMessage o data s = mkRun (Normal tt) s [].
Proof.
  intros Ht Hpre. destruct (typed_is_object _ _ Ht) as [m ->].
  unfold handleMessage. rewrite Ht. cbn [truthy typeof negb orb].
  destruct (negb (t =? ""))%string; cbn [negb orb]; rewrite ?Hpre; reflexivity.
Qed.

(** One with the prefix but outside the host-to-task catalog falls through
    the [switch]; it is only logged in debug mode. *)
Lemma handleMessage_uncatalogued o data s t :
  get data "type" = Str t -> String.prefix "BRIXEL_" t = true ->
  t <> "BRIXEL_INIT" -> t <> "BRIXEL_UPDATE_INPUTS" -> t <> "BRIXEL_DESTROY" ->
  handleMessage o data s = mkRun (Normal tt) s (logged o "Received message:" data).
Proof.
  intros Ht Hpre H1 H2 H3. destruct (typed_is_object _ _ Ht) as [m ->].
  unfold handleMessage. rewrite Ht. cbn [truthy typeof negb orb].
  assert (t <> "") as H0 by (intros ->; discriminate Hpre).
  apply String.eqb_neq in H0, H1, H2, H3.
  rewrite H0, H1, H2, H3, Hpre. cbn -[get].
  unfold mbind, M_bind, bind. rewrite debugLog_run. cbn -[get]. by rewrite app_nil_r.
Qed.

(** A truthy [type] that is not a string passes the structure check and
    then has no [startsWith] method to call. *)
Lemma handleMessage_throws o data s :
  typeof data = "object" ->
  truthy (get data "type") = true ->
  typeof (get data "type") <> "string" ->
  handleMessage o data s =
    mkRun (Throw (Error "TypeError" "message.type.startsWith is not a function")) s [].
Proof.
  intros Hobj Ht Hs. unfold handleMessage. rewrite Ht.
  destruct data; try discriminate Hobj; try discriminate Ht.
  cbn [truthy typeof negb orb String.eqb].
  destruct (get (Obj m) "type"); try reflexivity; try discriminate Ht.
  exfalso. by apply Hs.
Qed.

(** Whatever is delivered, the listener leaves the state as it was, or as
    an INIT sets it, or with new inputs only. *)
Lemma handleMessage_store o data s :
  store (handleMessage o data s) = s
  \/ (exists payload, get data "type" = Str "BRIXEL_INIT"
                      /\ store (handleMessage o data s) = initialized payload s)
  \/ (exists v, store (handleMessage o data s) = withInputs v s).
Proof.
  destruct (truthy data) eqn:Hd;
    [| left; by rewrite handleMessage_malformed by auto].
  destruct (String.eqb_spec (typeof data) "object") as [Hobj | Hobj];
    [| left; by rewrite handleMessage_malformed by auto].
  destruct (truthy (get data "type")) eqn:Ht;
    [| left; by rewrite handleMessage_malformed by auto].
  destruct (get data "type") as [| |b|n| |t|l|m] eqn:Hty;
    try discriminate Ht;
    try (left; rewrite handleMessage_throws; [done | done | by rewrite Hty | by rewrite Hty]).
  destruct (String.prefix "BRIXEL_" t) eqn:Hpre;
    [| left; by rewrite (handleMessage_foreign o data s t)].
  destruct (nullish (get data "payload")) eqn:Hp.
  - left.
    destruct (String.eqb_spec t "BRIXEL_INIT") as [-> | H1];
      [by rewrite (handleMessage_no_payload o data s "BRIXEL_INIT") by auto |].
    destruct (String.eqb_spec t "BRIXEL_UPDATE_INPUTS") as [-> | H2];
      [by rewrite (handleMessage_no_payload o data s "BRIXEL_UPDATE_INPUTS") by auto |].
    destruct (String.eqb_spec t "BRIXEL_DESTROY") as [-> | H3];
      [by rewrite handleMessage_destroy |].
    by rewrite (handleMessage_uncatalogued o data s t).
  - destruct (String.eqb_spec t "BRIXEL_INIT") as [-> | H1];
      [right; left; eexists; split; [done |]; by rewrite handleMessage_init |].
    destruct (String.eqb_spec t "BRIXEL_UPDATE_INPUTS") as [-> | H2];
      [right; right; eexists; by rewrite handleMessage_update |].
    left.
    destruct (String.eqb_spec t "BRIXEL_DESTROY") as [-> | H3];
      [by rewrite handleMessage_destroy |].
    by rewrite (handleMessage_uncatalogued o data s t).
Qed.

(** ** Mounting and the reachable states *)

Lemma mountEffect_run o s :
  store (mountEffect o s) = mounted s
  /\ completion (mountEffect o s) = Normal tt
  /\ posts (trace (mountEffect o s)) =
       [(if isEmbedded s then parent else self,
         envelope "BRIXEL_READY" (<["version" := Str SDK_VERSION]> ∅),
         targetOrigin o)].
Proof.
  unfold mountEffect, mbind, M_bind, bind, getState, setParentWindow, modify.
  cbn -[envelope]. destruct (isEmbedded s) eqn:He; cbn -[envelope].
  - erewrite postToParent_run by reflexivity. cbn -[envelope].
    rewrite debugLog_run. cbn -[envelope]. unfold mounted. rewrite He.
    rewrite !posts_app, !posts_logged. done.
  - rewrite debugLog_run. cbn -[envelope].
    erewrite postToParent_run by reflexivity. cbn -[envelope].
    rewrite debugLog_run. cbn -[envelope]. unfold mounted. rewrite He.
    rewrite !posts_app, !posts_logged. done.
Qed.

Lemma call_store o c s :
  store (step o (eventOf c) s) =
    if negb (hasCompleted s) && truthy (runId s) then finished (verdict c) s else s.
Proof.
  destruct (hasCompleted s) eqn:Hc.
  - by destruct (call_done o c s Hc) as [text ->].
  - destruct (truthy (runId s)) eqn:Hr; [| by rewrite call_no_run].
    destruct c; cbn; unfold complete, cancel, mbind, M_bind, bind, getState; cbn;
      rewrite Hc, Hr; cbn; unfold postToParent, mbind, M_bind, bind, getState; cbn;
      destruct (parentWindow s) eqn:Hw; cbn; rewrite !debugLog_run; cbn;
      rewrite ?debugLog_run; unfold finished; cbn; rewrite ?Hw; reflexivity.
Qed.

Lemma resize_log_store o s :
  (forall captured height, store (setHeight o captured height s) = s)
  /\ (forall captured level message data,
        store (log o captured level message data s) = s).
Proof.
  split; intros; unfold setHeight, log, mbind, M_bind, bind, getState; cbn;
    destruct (truthy captured); cbn; try reflexivity;
    unfold postToParent, mbind, M_bind, bind, getState; cbn;
    destruct (parentWindow s); cbn; rewrite ?debugLog_run; cbn;
    rewrite ?debugLog_run; reflexivity.
Qed.

Lemma step_guarded o e s : guarded s -> guarded (store (step o e s)).
Proof.
  intros G. destruct e as [|data|output|reason|height|level message data].
  - cbn [step]. destruct (mountEffect_run o s) as (-> & _). exact G.
  - cbn [step].
    destruct (handleMessage_store o data s) as [-> | [(p & _ & ->) | (v & ->)]];
      [exact G | discriminate | exact G].
  - rewrite (call_store o (ToComplete output)).
    destruct (hasCompleted s) eqn:Hc; cbn [negb andb]; [exact G |].
    destruct (truthy (runId s)) eqn:Hr; [by intros _ | exact G].
  - rewrite (call_store o (ToCancel reason)).
    destruct (hasCompleted s) eqn:Hc; cbn [negb andb]; [exact G |].
    destruct (truthy (runId s)) eqn:Hr; [by intros _ | exact G].
  - cbn [step]. by rewrite (proj1 (resize_log_store o s)).
  - cbn [step]. by rewrite (proj2 (resize_log_store o s)).
Qed.

Lemma step_embedding o e s :
  isEmbedded (store (step o e s)) = isEmbedded s
  /\ (forall w, parentWindow s = Some w -> isEmbedded s = embeddedIn w ->
                parentWindow (store (step o e s)) = Some w).
Proof.
  destruct e as [|data|output|reason|height|level message data].
  - cbn [step]. destruct (mountEffect_run o s) as (-> & _). split; [done |].
    intros w _ He. unfold mounted. cbn. rewrite He. by destruct w.
  - cbn [step].
    by destruct (handleMessage_store o data s) as [-> | [(p & _ & ->) | (v & ->)]].
  - rewrite (call_store o (ToComplete output)).
    by destruct (negb (hasCompleted s) && truthy (runId s)).
  - rewrite (call_store o (ToCancel reason)).
    by destruct (negb (hasCompleted s) && truthy (runId s)).
  - cbn [step]. by rewrite (proj1 (resize_log_store o s)).
  - cbn [step]. by rewrite (proj2 (resize_log_store o s)).
Qed.

Lemma runEvents_reachable o es s w :
  guarded s -> parentWindow s = Some w -> isEmbedded s = embeddedIn w ->
  guarded (runEvents o es s).1 /\ parentWindow (runEvents o es s).1 = Some w.
Proof.
  revert s. induction es as [|e es IH]; intros s G Hw He; [done |].
  cbn [runEvents fst]. apply IH.
  - by apply step_guarded.
  - by apply step_embedding.
  - by rewrite (proj1 (step_embedding o e s)).
Qed.

(** Every state of a session is guarded and has its window to post to. *)
Lemma session_reachable o embedded es :
  guarded (session o embedded es).1
  /\ parentWindow (session o embedded es).1 =
       Some (if embedded then parent else self).
Proof.
  unfold session. cbn [runEvents fst step].
  destruct (mountEffect_run o (initialState embedded)) as (-> & _).
  apply runEvents_reachable; [done | done | by destruct embedded].
Qed.

Lemma get_envelope type payload :
  get (envelope type payload) "type" = Str type
  /\ get (envelope type payload) "payload" = Obj payload.
Proof.
  unfold envelope, get. split.
  - by rewrite lookup_insert_eq.
  - rewrite lookup_insert_ne by done. by rewrite lookup_insert_eq.
Qed.

(** ** Missing-run guards *)

(** C5. In every state a session reaches in which no run id is set (as
    before any INIT), [complete] and [cancel] only write their complaint to
    the local console, [setHeight] and [log] do nothing at all, and each of
    the four returns normally, posts no envelope and leaves the whole state,
    [hasCompleted] and [status] included, as it was.  This holds of the
    functions of the latest render, and in such a state of the function of
    any render that has no run id. *)
Theorem missing_run_guards
    (o : Options) (embedded : bool) (es : list Event)
    (c : Call) (height data : value) (level message : string) :
  let s := (session o embedded es).1 in
  truthy (runId s) = false ->
  step o (eventOf c) s = mkRun (Normal tt) s [complaint c]
  /\ setHeight o (runId s) height s = mkRun (Normal tt) s []
  /\ log o (runId s) level message data s = mkRun (Normal tt) s []
  /\ forall captured : value,
       truthy captured = false ->
       call o captured c s = mkRun (Normal tt) s [complaint c]
       /\ setHeight o captured height s = mkRun (Normal tt) s []
       /\ log o captured level message data s = mkRun (Normal tt) s [].
Proof.
  intros s Hr. destruct (session_reachable o embedded es) as [G _]. fold s in G.
  clearbody s.
  assert (hasCompleted s = false) as Hc.
  { destruct (hasCompleted s) eqn:Hc; [| done]. specialize (G Hc). congruence. }
  split; [by apply call_no_run |].
  unfold setHeight, log. rewrite Hr. do 2 (split; [done |]).
  intros captured Hcap. rewrite Hcap. split; [by apply call_refused | done].
Qed.

Lemma missing_run_guards_witness :
  truthy (runId (session defaultOptions true []).1) = false
  /\ complete defaultOptions (runId (session defaultOptions true []).1) (Str "A")
       (session defaultOptions true []).1
     = mkRun (Normal tt) (session defaultOptions true []).1
         [ConsoleError "[BrixelSDK] Cannot complete - no runId"]
  /\ setHeight defaultOptions (runId (session defaultOptions true []).1) (Num 120)
       (session defaultOptions true []).1
     = mkRun (Normal tt) (session defaultOptions true []).1 [].
Proof.
  pose proof (missing_run_guards defaultOptions true [] (ToComplete (Str "A"))
                (Num 120) Undefined "info" "hello" eq_refl) as (Hc & Hh & _).
  split; [reflexivity |]. split; [exact Hc | exact Hh].
Defined.

(** Before any INIT is delivered no run id is set. *)
Lemma no_init_no_run o es s :
  runId s = Null ->
  Forall (fun e => forall data, e = Message data ->
                                get data "type" <> Str "BRIXEL_INIT") es ->
  runId (runEvents o es s).1 = Null.
Proof.
  revert s. induction es as [|e es IH]; intros s Hs Hes; [done |].
  inversion Hes as [| ? ? He Hes']; subst. cbn [runEvents fst]. apply IH; [| done].
  destruct e as [|data|output|reason|height|level message data].
  - cbn [step]. by destruct (mountEffect_run o s) as (-> & _).
  - cbn [step].
    destruct (handleMessage_store o data s) as [-> | [(p & Ht & _) | (v & ->)]];
      [done | | done]. by destruct (He data eq_refl).
  - rewrite (call_store o (ToComplete output)).
    by destruct (negb (hasCompleted s) && truthy (runId s)).
  - rewrite (call_store o (ToCancel reason)).
    by destruct (negb (hasCompleted s) && truthy (runId s)).
  - cbn [step]. by rewrite (proj1 (resize_log_store o s)).
  - cbn [step]. by rewrite (proj2 (resize_log_store o s)).
Qed.

(** ** Re-initialization *)

(** C2, amended. An INIT message with a payload is adopted unconditionally:
    the listener returns normally, posts nothing, and leaves [runId],
    [inputs], [context] and [renderMode] as the payload gives them,
    [hasCompleted] false and the status [ready], whatever the state was
    (a completed run included).  The next [complete] or [cancel] then goes
    through when the function called has a truthy run id, that is a
    non-empty string, and posts its envelope tagged with that run id; the
    functions of the renders that follow the INIT have the new run id, so
    with a non-empty new run id a call through them is tagged with it.  A
    function without a run id, the new one when it is empty, is refused as
    for a missing run. *)
Theorem init_adopts_run
    (o : Options) (s : State) (w : Window) (data : value) :
  get data "type" = Str "BRIXEL_INIT" ->
  nullish (get data "payload") = false ->
  parentWindow s = Some w ->
  let payload := get data "payload" in
  let r := handleMessage o data s in
  completion r = Normal tt
  /\ store r = initialized payload s
  /\ posts (trace r) = [] /\ callbacks (trace r) = []
  /\ (forall c : Call,
        step o (eventOf c) (store r) = call o (get payload "runId") c (store r))
  /\ forall (captured : value) (c : Call),
       let r' := call o captured c (store r) in
       if truthy captured
       then store r' = finished (verdict c) (initialized payload s)
            /\ posts (trace r') = [(w, signal captured c, targetOrigin o)]
       else r' = mkRun (Normal tt) (initialized payload s) [complaint c].
Proof.
  intros Ht Hp Hw payload r. subst r payload.
  rewrite handleMessage_init by done. cbn [completion store trace].
  rewrite posts_app, callbacks_app, !posts_logged, !callbacks_logged.
  do 4 (split; [done |]). split; [intros c; by rewrite step_call |].
  intros captured c. cbn zeta.
  destruct (truthy captured) eqn:Hr.
  - destruct (call_succeeds o captured c (initialized (get data "payload") s) w)
      as (text & d & ->); [done | done | exact Hr |].
    cbn [store trace]. rewrite !posts_app, !posts_logged. done.
  - by apply call_refused.
Qed.

Lemma init_adopts_run_witness :
  get (exampleInit "run-2") "type" = Str "BRIXEL_INIT"
  /\ nullish (get (exampleInit "run-2") "payload") = false
  /\ parentWindow exampleDone = Some parent
  /\ hasCompleted exampleDone = true
  /\ (let s := store (handleMessage defaultOptions (exampleInit "run-2") exampleDone) in
      hasCompleted s = false /\ status s = ready /\ runId s = Str "run-2"
      /\ posts (trace (step defaultOptions (Complete (Str "B")) s))
         = [(parent, signal (Str "run-2") (ToComplete (Str "B")), "*")]).
Proof.
  pose proof (init_adopts_run defaultOptions exampleDone parent (exampleInit "run-2")
                eq_refl eq_refl eq_refl) as (_ & Hs & _ & _ & _ & Hnext).
  do 4 (split; [reflexivity |]). cbn zeta.
  do 3 (split; [reflexivity |]).
  exact (proj2 (Hnext (Str "run-2") (ToComplete (Str "B")))).
Defined.

(** C2 as stated fails in two ways.  For an INIT whose run id is the empty
    string the run is adopted, and the next [complete] is refused, posting
    nothing and leaving the status [ready].  And after an INIT for run-2, a
    [complete] through the function kept from the render of the completed
    run-1 posts a COMPLETE tagged run-1, not run-2, and uses up the guard
    of the new run: the function of the latest render is then ignored. *)
Lemma init_with_empty_run_id_stays_disabled :
  (let s := (session defaultOptions true
               [Message (exampleInit "run-1"); Complete (Str "A");
                Message (exampleInit "")]).1 in
   runId s = Str "" /\ hasCompleted s = false
   /\ posts (trace (complete defaultOptions (runId s) (Str "B") s)) = []
   /\ status (store (complete defaultOptions (runId s) (Str "B") s)) = ready)
  /\ (let s := (session defaultOptions true
                  [Message (exampleInit "run-1"); Complete (Str "A");
                   Message (exampleInit "run-2")]).1 in
      let kept := complete defaultOptions (Str "run-1") (Str "B") s in
      runId s = Str "run-2" /\ hasCompleted s = false
      /\ posts (trace kept)
         = [(parent, signal (Str "run-1") (ToComplete (Str "B")), "*")]
      /\ posts (trace (complete defaultOptions (runId (store kept)) (Str "C")
                         (store kept))) = []).
Proof. repeat split. Qed.

(** ** Input updates *)

(** C3. An UPDATE_INPUTS message with a payload changes the inputs and
    nothing else, the status in particular: over prior inputs that are an
    object (or any truthy value) the new inputs are the object holding, for
    each key, the value of the partial payload if it has one and that of the
    prior inputs otherwise; with no prior inputs ([null], or any other falsy
    value) the partial payload becomes the inputs.  The input-update callback, when registered, is called once,
    with the raw partial payload.  Nothing is posted. *)
Theorem update_inputs_merge (o : Options) (s : State) (data : value) :
  get data "type" = Str "BRIXEL_UPDATE_INPUTS" ->
  nullish (get data "payload") = false ->
  let partial := get (get data "payload") "inputs" in
  let r := handleMessage o data s in
  completion r = Normal tt
  /\ store r = withInputs (inputs (store r)) s
  /\ status (store r) = status s
  /\ (truthy (inputs s) = true ->
      exists merged,
        inputs (store r) = Obj merged
        /\ forall k, merged !! k =
                       match ownProps partial !! k with
                       | Some v => Some v
                       | None => ownProps (inputs s) !! k
                       end)
  /\ (forall prior update, inputs s = Obj prior -> partial = Obj update ->
                           inputs (store r) = Obj (update ∪ prior))
  /\ (truthy (inputs s) = false -> inputs (store r) = partial)
  /\ callbacks (trace r) =
       (if onInputsUpdate o then [CallInputsUpdate partial] else [])
  /\ posts (trace r) = [].
Proof.
  intros Ht Hp partial r. subst r partial.
  rewrite handleMessage_update by done. cbn [completion store trace].
  set (partial := get (get data "payload") "inputs").
  split; [done |]. split; [done |]. split; [done |].
  split; [| split; [| split; [| split]]].
  - intros Hin. cbn [withInputs inputs]. rewrite Hin. eexists. split; [reflexivity |].
    intros k. rewrite lookup_union. by destruct (ownProps partial !! k), (ownProps (inputs s) !! k).
  - intros prior update Hs Hu. cbn [withInputs inputs]. rewrite Hs, Hu. reflexivity.
  - intros Hs. cbn [withInputs inputs]. by rewrite Hs.
  - rewrite !callbacks_app, !callbacks_logged. by destruct (onInputsUpdate o).
  - rewrite !posts_app, !posts_logged. by destruct (onInputsUpdate o).
Qed.

Lemma update_inputs_merge_witness :
  get exampleUpdate "type" = Str "BRIXEL_UPDATE_INPUTS"
  /\ nullish (get exampleUpdate "payload") = false
  /\ inputs (store (handleMessage defaultOptions exampleUpdate exampleReady))
     = Obj (<["a" := Num 1]> (<["b" := Num 3]> ∅))
  /\ status (store (handleMessage defaultOptions exampleUpdate exampleReady)) = ready.
Proof.
  pose proof (update_inputs_merge defaultOptions exampleReady exampleUpdate
                eq_refl eq_refl) as (_ & _ & Hst & _ & Hm & _).
  do 2 (split; [reflexivity |]). split; [| exact Hst].
  exact (Hm (<["a" := Num 1]> (<["b" := Num 2]> ∅)) (<["b" := Num 3]> ∅)
            eq_refl eq_refl).
Defined.

(** The second test of the specification: no prior inputs, payload
    [{ x: 9 }]. *)
Lemma update_inputs_before_init :
  inputs (store (handleMessage defaultOptions
                   (envelope "BRIXEL_UPDATE_INPUTS"
                      (<["inputs" := Obj (<["x" := Num 9]> ∅)]> ∅))
                   (session defaultOptions true []).1))
  = Obj (<["x" := Num 9]> ∅).
Proof. reflexivity. Qed.

(** C10. The run id of an UPDATE_INPUTS payload is never looked at.
    Whatever run id the payload carries, or none, and whatever run the
    state holds, or none, the message has the effect it has when it
    carries the current run id: the same resulting state and the same
    callback call.  The stored [runId], [status], [context], [renderMode]
    and [hasCompleted] are those of the state before. *)
Theorem update_inputs_ignores_run_id
    (o : Options) (s : State) (fields : gmap string value) (other : value) :
  let update run := envelope "BRIXEL_UPDATE_INPUTS" (<["runId" := run]> fields) in
  let anonymous := envelope "BRIXEL_UPDATE_INPUTS" (delete "runId" fields) in
  let r := handleMessage o (update other) s in
  let r0 := handleMessage o (update (runId s)) s in
  completion r = Normal tt
  /\ store r = store r0
  /\ callbacks (trace r) = callbacks (trace r0)
  /\ store (handleMessage o anonymous s) = store r0
  /\ callbacks (trace (handleMessage o anonymous s)) = callbacks (trace r0)
  /\ posts (trace r) = []
  /\ store r = withInputs (inputs (store r)) s
  /\ inputs (store r) =
       (if truthy (inputs s) then spread2 (inputs s) (get (Obj fields) "inputs")
        else get (Obj fields) "inputs")
  /\ callbacks (trace r) =
       (if onInputsUpdate o then [CallInputsUpdate (get (Obj fields) "inputs")]
        else []).
Proof.
  intros update anonymous r r0. subst update anonymous r r0. cbn beta.
  rewrite !handleMessage_update
    by (destruct (get_envelope "BRIXEL_UPDATE_INPUTS" (<["runId" := other]> fields)) as [E1 E2];
        destruct (get_envelope "BRIXEL_UPDATE_INPUTS" (<["runId" := runId s]> fields)) as [E3 E4];
        destruct (get_envelope "BRIXEL_UPDATE_INPUTS" (delete "runId" fields)) as [E5 E6];
        rewrite ?E1, ?E2, ?E3, ?E4, ?E5, ?E6; done).
  rewrite !(proj2 (get_envelope _ _)). cbn [completion store trace].
  assert (forall run, get (Obj (<["runId" := run]> fields)) "inputs"
                      = get (Obj fields) "inputs") as Hin
    by (intros run; unfold get; by rewrite lookup_insert_ne).
  assert (get (Obj (delete "runId" fields)) "inputs" = get (Obj fields) "inputs") as Hno
    by (unfold get; by rewrite lookup_delete_ne).
  rewrite !Hin, Hno, !callbacks_app, !posts_app, !callbacks_logged, !posts_logged.
  repeat split; by destruct (onInputsUpdate o).
Qed.

(** ** Teardown *)

(** C9. A DESTROY message calls the teardown callback, when one is
    registered, and does nothing else: the listener returns normally, the
    whole state ([status], [runId], [inputs], [context], [renderMode],
    [hasCompleted]) is as before, and nothing is posted. *)
Theorem destroy_frame (o : Options) (s : State) (data : value) :
  get data "type" = Str "BRIXEL_DESTROY" ->
  let r := handleMessage o data s in
  completion r = Normal tt
  /\ store r = s
  /\ callbacks (trace r) = (if onDestroy o then [CallDestroy] else [])
  /\ posts (trace r) = [].
Proof.
  intros Ht r. subst r. rewrite handleMessage_destroy by done.
  cbn [completion store trace].
  rewrite !callbacks_app, !posts_app, !callbacks_logged, !posts_logged.
  by destruct (onDestroy o).
Qed.

Lemma destroy_frame_witness :
  get (envelope "BRIXEL_DESTROY" (<["runId" := Str "run-1"]> ∅)) "type"
    = Str "BRIXEL_DESTROY"
  /\ (let r := handleMessage
                 {| targetOrigin := "*"; onInputsUpdate := false;
                    onDestroy := true; debug := false |}
                 (envelope "BRIXEL_DESTROY" (<["runId" := Str "run-1"]> ∅))
                 exampleReady in
      store r = exampleReady /\ callbacks (trace r) = [CallDestroy]).
Proof.
  pose proof (destroy_frame
                {| targetOrigin := "*"; onInputsUpdate := false;
                   onDestroy := true; debug := false |}
                exampleReady
                (envelope "BRIXEL_DESTROY" (<["runId" := Str "run-1"]> ∅))
                eq_refl) as (_ & Hs & Hc & _).
  split; [reflexivity |]. split; [exact Hs | exact Hc].
Defined.

(** ** Messages outside the protocol *)

(** C4, at the input where it fails. A message whose [type] is a number
    other than zero, here [{ type: 42 }], passes the structure check and
    makes the listener throw a TypeError: [startsWith] is called on a value
    that has no such method.  The state is untouched and nothing is posted
    or called, but the listener does not return normally. *)
Theorem listener_throws_on_numeric_type (o : Options) (s : State) :
  handleMessage o (Obj {[ "type" := Num 42 ]}) s =
    mkRun (Throw (Error "TypeError" "message.type.startsWith is not a function")) s [].
Proof. by apply handleMessage_throws. Qed.

(** * Further properties *)

(** ** What each event posts *)

Lemma bind_normal {A B : Type} (m : M A) (k : A -> M B) s a :
  completion (m s) = Normal a ->
  (m ≫= k) s
  = mkRun (completion (k a (store (m s)))) (store (k a (store (m s))))
      (trace (m s) ++ trace (k a (store (m s))))%list.
Proof. intros H. unfold mbind, M_bind, bind. by rewrite H. Qed.

Lemma postToParent_none o message s :
  parentWindow s = None ->
  postToParent o message s =
    mkRun (Normal tt) s (logged o "Cannot send message - no parent window" Undefined).
Proof.
  intros Hw. unfold postToParent, mbind, M_bind, bind, getState. cbn.
  rewrite Hw. by rewrite debugLog_run.
Qed.

Lemma postToParent_posts o message s :
  completion (postToParent o message s) = Normal tt
  /\ store (postToParent o message s) = s
  /\ callbacks (trace (postToParent o message s)) = []
  /\ posts (trace (postToParent o message s)) =
       match parentWindow s with
       | Some w => [(w, message, targetOrigin o)]
       | None => []
       end.
Proof.
  destruct (parentWindow s) as [w|] eqn:Hw.
  - rewrite (postToParent_run o message s w Hw). cbn [completion store trace].
    by rewrite posts_app, callbacks_app, posts_logged, callbacks_logged.
  - rewrite (postToParent_none o message s Hw). cbn [completion store trace].
    by rewrite posts_logged, callbacks_logged.
Qed.

Lemma setHeight_run o captured height s :
  completion (setHeight o captured height s) = Normal tt
  /\ store (setHeight o captured height s) = s
  /\ callbacks (trace (setHeight o captured height s)) = []
  /\ posts (trace (setHeight o captured height s))
     = match parentWindow s with
       | Some w =>
           if truthy captured
           then [(w, resizeEnvelope captured height, targetOrigin o)] else []
       | None => []
       end.
Proof.
  unfold setHeight. destruct (truthy captured) eqn:Hr; cbn [negb].
  - fold (resizeEnvelope captured height).
    destruct (postToParent_posts o (resizeEnvelope captured height) s)
      as (Hc & Hs & Hcb & Hp).
    rewrite (bind_normal _ _ s tt Hc), Hs, debugLog_run.
    cbn [completion store trace].
    by rewrite posts_app, callbacks_app, posts_logged, callbacks_logged, Hp, Hcb,
      !app_nil_r.
  - by destruct (parentWindow s).
Qed.

Lemma log_run o captured level message data s :
  completion (log o captured level message data s) = Normal tt
  /\ store (log o captured level message data s) = s
  /\ callbacks (trace (log o captured level message data s)) = []
  /\ posts (trace (log o captured level message data s))
     = match parentWindow s with
       | Some w =>
           if truthy captured
           then [(w, logEnvelope captured level message data, targetOrigin o)]
           else []
       | None => []
       end.
Proof.
  unfold log. destruct (truthy captured) eqn:Hr; cbn [negb].
  - fold (logEnvelope captured level message data).
    destruct (postToParent_posts o (logEnvelope captured level message data) s)
      as (Hc & Hs & Hcb & Hp).
    by rewrite Hc, Hs, Hcb, Hp.
  - by destruct (parentWindow s).
Qed.

Lemma setHeight_posts o height s :
  completion (setHeight o (runId s) height s) = Normal tt
  /\ store (setHeight o (runId s) height s) = s
  /\ callbacks (trace (setHeight o (runId s) height s)) = []
  /\ posts (trace (setHeight o (runId s) height s)) = outgoing o s (SetHeight height).
Proof. apply setHeight_run. Qed.

Lemma log_posts o level message data s :
  completion (log o (runId s) level message data s) = Normal tt
  /\ store (log o (runId s) level message data s) = s
  /\ callbacks (trace (log o (runId s) level message data s)) = []
  /\ posts (trace (log o (runId s) level message data s))
     = outgoing o s (Log level message data).
Proof. apply log_run. Qed.

Lemma call_posts o c s :
  callbacks (trace (step o (eventOf c) s)) = []
  /\ posts (trace (step o (eventOf c) s)) = outgoing o s (eventOf c).
Proof.
  destruct (hasCompleted s) eqn:Hc.
  - destruct (call_done o c s Hc) as [text ->]. cbn [trace].
    rewrite posts_logged, callbacks_logged.
    destruct c; cbn [eventOf outgoing]; rewrite Hc; by destruct (parentWindow s).
  - destruct (truthy (runId s)) eqn:Hr.
    + destruct (parentWindow s) as [w|] eqn:Hw.
      * destruct (call_first o c s w Hw Hc Hr) as (text & data & ->). cbn [trace].
        rewrite !posts_app, !callbacks_app, !posts_logged, !callbacks_logged.
        destruct c; cbn [eventOf outgoing]; by rewrite Hw, Hc, Hr.
      * destruct c; cbn; unfold complete, cancel, mbind, M_bind, bind, getState;
          cbn; rewrite Hc, Hr; cbn;
          rewrite postToParent_none by done; cbn; rewrite debugLog_run; cbn;
          rewrite Hw, !posts_app, !callbacks_app, !posts_logged, !callbacks_logged;
          done.
    + rewrite (call_no_run o c s Hc Hr). cbn [trace].
      destruct c; cbn [eventOf outgoing]; rewrite Hc, Hr; by destruct (parentWindow s).
Qed.

(** The listener is receive-only. *)
Lemma handleMessage_silent o data s : posts (trace (handleMessage o data s)) = [].
Proof.
  destruct (truthy data) eqn:Hd;
    [| by rewrite handleMessage_malformed by auto].
  destruct (String.eqb_spec (typeof data) "object") as [Hobj | Hobj];
    [| by rewrite handleMessage_malformed by auto].
  destruct (truthy (get data "type")) eqn:Ht;
    [| by rewrite handleMessage_malformed by auto].
  destruct (get data "type") as [| |b|n| |t|l|m] eqn:Hty;
    try discriminate Ht;
    try (rewrite handleMessage_throws; [done | done | by rewrite Hty | by rewrite Hty]).
  destruct (String.prefix "BRIXEL_" t) eqn:Hpre;
    [| by rewrite (handleMessage_foreign o data s t)].
  assert (forall a, posts (logged o "Received message:" data ++ a) = posts a) as Hl
    by (intros a; by rewrite posts_app, posts_logged).
  destruct (String.eqb_spec t "BRIXEL_DESTROY") as [-> | H3].
  { rewrite handleMessage_destroy by done. cbn [trace].
    rewrite Hl, posts_app, posts_logged. by destruct (onDestroy o). }
  destruct (nullish (get data "payload")) eqn:Hp.
  - destruct (String.eqb_spec t "BRIXEL_INIT") as [-> | H1];
      [rewrite (handleMessage_no_payload o data s "BRIXEL_INIT") by auto;
       apply posts_logged |].
    destruct (String.eqb_spec t "BRIXEL_UPDATE_INPUTS") as [-> | H2];
      [rewrite (handleMessage_no_payload o data s "BRIXEL_UPDATE_INPUTS") by auto;
       apply posts_logged |].
    rewrite (handleMessage_uncatalogued o data s t) by done. apply posts_logged.
  - destruct (String.eqb_spec t "BRIXEL_INIT") as [-> | H1];
      [rewrite handleMessage_init by done; cbn [trace]; rewrite Hl;
       apply posts_logged |].
    destruct (String.eqb_spec t "BRIXEL_UPDATE_INPUTS") as [-> | H2];
      [rewrite handleMessage_update by done; cbn [trace];
       rewrite Hl, posts_app, posts_logged; by destruct (onInputsUpdate o) |].
    rewrite (handleMessage_uncatalogued o data s t) by done. apply posts_logged.
Qed.

Lemma step_posts o e s : posts (trace (step o e s)) = outgoing o s e.
Proof.
  destruct e as [|data|output|reason|height|level message data].
  - cbn [step outgoing]. by destruct (mountEffect_run o s) as (_ & _ & ->).
  - cbn [step outgoing]. apply handleMessage_silent.
  - exact (proj2 (call_posts o (ToComplete output) s)).
  - exact (proj2 (call_posts o (ToCancel reason) s)).
  - cbn [step]. by destruct (setHeight_posts o height s) as (_ & _ & _ & ->).
  - cbn [step]. by destruct (log_posts o level message data s) as (_ & _ & _ & ->).
Qed.

Lemma runEvents_posts_Forall (P : Window * value * string -> Prop) o es s w :
  parentWindow s = Some w -> isEmbedded s = embeddedIn w ->
  (forall s' e, parentWindow s' = Some w -> isEmbedded s' = embeddedIn w ->
                Forall P (outgoing o s' e)) ->
  Forall P (posts (runEvents o es s).2).
Proof.
  intros Hw He HP. revert s Hw He. induction es as [|e es IH]; intros s Hw He.
  - constructor.
  - cbn [runEvents snd]. rewrite posts_app, step_posts. apply Forall_app. split.
    + by apply HP.
    + apply IH.
      * by apply step_embedding.
      * by rewrite (proj1 (step_embedding o e s)).
Qed.

Lemma session_posts_Forall (P : Window * value * string -> Prop) o embedded es :
  (forall s e, isEmbedded s = embedded ->
               e = Mount \/ parentWindow s = Some (if embedded then parent else self) ->
               Forall P (outgoing o s e)) ->
  Forall P (posts (session o embedded es).2).
Proof.
  intros HP. unfold session. cbn [runEvents snd].
  rewrite posts_app, step_posts. apply Forall_app. split.
  - apply HP; [done | by left].
  - cbn [step]. destruct (mountEffect_run o (initialState embedded)) as (-> & _).
    apply (runEvents_posts_Forall P o es _ (if embedded then parent else self)).
    + done.
    + by destruct embedded.
    + intros s' e Hw He. apply HP; [| by right].
      rewrite He. by destruct embedded.
Qed.

Lemma catalogued_envelope t payload :
  catalogued (envelope t payload)
  = (String.eqb t "BRIXEL_READY"
     || (String.eqb t "BRIXEL_COMPLETE" || String.eqb t "BRIXEL_CANCEL"
         || String.eqb t "BRIXEL_RESIZE" || String.eqb t "BRIXEL_LOG")
        && truthy (get (Obj payload) "runId")).
Proof.
  unfold catalogued. destruct (get_envelope t payload) as [-> ->]. done.
Qed.

Lemma terminal_envelope t payload :
  terminal (envelope t payload)
  = (String.eqb t "BRIXEL_COMPLETE" || String.eqb t "BRIXEL_CANCEL").
Proof. unfold terminal. by destruct (get_envelope t payload) as [-> _]. Qed.

Lemma get_run_field run rest : get (Obj (<["runId" := run]> rest)) "runId" = run.
Proof. unfold get. by rewrite lookup_insert_eq. Qed.

Lemma outgoing_catalogued o s e :
  Forall (fun p : Window * value * string => catalogued p.1.2 = true)
    (outgoing o s e).
Proof.
  destruct e as [|data|output|reason|height|level message data]; cbn [outgoing].
  - by repeat constructor.
  - constructor.
  - destruct (parentWindow s); [| constructor].
    destruct (hasCompleted s); cbn [negb andb]; [constructor |].
    destruct (truthy (runId s)) eqn:Hr; repeat constructor. cbn [fst snd signal].
    by rewrite catalogued_envelope, get_run_field, Hr.
  - destruct (parentWindow s); [| constructor].
    destruct (hasCompleted s); cbn [negb andb]; [constructor |].
    destruct (truthy (runId s)) eqn:Hr; repeat constructor. cbn [fst snd signal].
    by rewrite catalogued_envelope, get_run_field, Hr.
  - destruct (parentWindow s); [| constructor].
    destruct (truthy (runId s)) eqn:Hr; repeat constructor. cbn [fst snd].
    unfold resizeEnvelope. by rewrite catalogued_envelope, get_run_field, Hr.
  - destruct (parentWindow s); [| constructor].
    destruct (truthy (runId s)) eqn:Hr; repeat constructor. cbn [fst snd].
    unfold logEnvelope. by rewrite catalogued_envelope, get_run_field, Hr.
Qed.

Lemma catalogued_inert o m s :
  catalogued m = true ->
  handleMessage o m s = mkRun (Normal tt) s (logged o "Received message:" m).
Proof.
  unfold catalogued. destruct (get m "type") as [| |b|n| |t|l|fields] eqn:Ht;
    try discriminate. intros Hc.
  destruct (String.eqb_spec t "BRIXEL_READY") as [-> | H1];
    [by apply (handleMessage_uncatalogued o m s "BRIXEL_READY") |].
  destruct (String.eqb_spec t "BRIXEL_COMPLETE") as [-> | H2];
    [by apply (handleMessage_uncatalogued o m s "BRIXEL_COMPLETE") |].
  destruct (String.eqb_spec t "BRIXEL_CANCEL") as [-> | H3];
    [by apply (handleMessage_uncatalogued o m s "BRIXEL_CANCEL") |].
  destruct (String.eqb_spec t "BRIXEL_RESIZE") as [-> | H4];
    [by apply (handleMessage_uncatalogued o m s "BRIXEL_RESIZE") |].
  destruct (String.eqb_spec t "BRIXEL_LOG") as [-> | H5];
    [by apply (handleMessage_uncatalogued o m s "BRIXEL_LOG") |].
  discriminate Hc.
Qed.

Lemma catalogued_in_sessions o embedded es :
  Forall (fun p : Window * value * string => catalogued p.1.2 = true)
    (posts (session o embedded es).2).
Proof. apply session_posts_Forall. intros s e _ _. apply outgoing_catalogued. Qed.

(** ** Properties of whole sessions *)

(** X1. Whatever is delivered to it, the listener posts nothing and never
    sets the completion flag: it only receives. *)
Theorem listener_is_receive_only (o : Options) (data : value) (s : State) :
  posts (trace (handleMessage o data s)) = []
  /\ (hasCompleted (store (handleMessage o data s)) = true -> hasCompleted s = true).
Proof.
  split; [apply handleMessage_silent |].
  by destruct (handleMessage_store o data s) as [-> | [(p & _ & ->) | (v & ->)]].
Qed.

Lemma listener_is_receive_only_witness :
  posts (trace (handleMessage defaultOptions (exampleInit "run-2") exampleDone)) = []
  /\ hasCompleted
       (store (handleMessage defaultOptions
                 (envelope "BRIXEL_DESTROY" (<["runId" := Str "run-1"]> ∅))
                 exampleDone)) = true
  /\ hasCompleted exampleDone = true.
Proof.
  pose proof (listener_is_receive_only defaultOptions (exampleInit "run-2") exampleDone)
    as [Hposts _].
  pose proof (listener_is_receive_only defaultOptions
                (envelope "BRIXEL_DESTROY" (<["runId" := Str "run-1"]> ∅)) exampleDone)
    as [_ Hflag].
  split; [exact Hposts |]. split; [reflexivity | exact (Hflag eq_refl)].
Defined.

(** X2. Every envelope of a session goes to one window, the parent when
    embedded and the window itself otherwise, and with the configured
    target origin. *)
Theorem session_posts_are_addressed
    (o : Options) (embedded : bool) (es : list Event) :
  Forall (fun p : Window * value * string =>
            p.1.1 = (if embedded then parent else self) /\ p.2 = targetOrigin o)
    (posts (session o embedded es).2).
Proof.
  apply session_posts_Forall. intros s e He Hs.
  destruct e as [|data|output|reason|height|level message data]; cbn [outgoing].
  - rewrite He. by repeat constructor.
  - constructor.
  - destruct Hs as [? | ->]; [done |].
    destruct (negb (hasCompleted s) && truthy (runId s)); by repeat constructor.
  - destruct Hs as [? | ->]; [done |].
    destruct (negb (hasCompleted s) && truthy (runId s)); by repeat constructor.
  - destruct Hs as [? | ->]; [done |].
    destruct (truthy (runId s)); by repeat constructor.
  - destruct Hs as [? | ->]; [done |].
    destruct (truthy (runId s)); by repeat constructor.
Qed.

(** X3. Every envelope of a session is READY, or a COMPLETE, CANCEL, RESIZE
    or LOG whose payload carries a truthy run id: nothing else is ever
    sent, a BRIXEL_ERROR in particular, and nothing but READY without a
    run. *)
Theorem session_posts_are_catalogued
    (o : Options) (embedded : bool) (es : list Event) :
  Forall (fun p : Window * value * string => catalogued p.1.2 = true)
    (posts (session o embedded es).2).
Proof. apply catalogued_in_sessions. Qed.

(** X4. In standalone mode the hook posts to its own window and so hears
    its own envelopes; each of them falls through the listener: it returns
    normally and leaves the state untouched, with the debug line as its
    only effect. *)
Theorem own_envelopes_are_inert
    (o : Options) (embedded : bool) (es : list Event) (s : State) :
  Forall (fun p : Window * value * string =>
            handleMessage o p.1.2 s
            = mkRun (Normal tt) s (logged o "Received message:" p.1.2))
    (posts (session o embedded es).2).
Proof.
  eapply Forall_impl; [apply catalogued_in_sessions |].
  intros p Hp. by apply catalogued_inert.
Qed.

(** ** One terminal envelope per run *)

Lemma terminalPosts_app t1 t2 :
  terminalPosts (t1 ++ t2) = (terminalPosts t1 ++ terminalPosts t2)%list.
Proof.
  unfold terminalPosts. by rewrite posts_app, fmap_app, List.filter_app.
Qed.

Lemma terminalPosts_step o e s :
  terminalPosts (trace (step o e s))
  = List.filter terminal ((fun p : Window * value * string => p.1.2) <$> outgoing o s e).
Proof. unfold terminalPosts. by rewrite step_posts. Qed.

Lemma isInit_false data :
  isInit (Message data) = false -> get data "type" <> Str "BRIXEL_INIT".
Proof. cbn. intros H E. by rewrite E in H. Qed.

Lemma step_budget o e s :
  length (terminalPosts (trace (step o e s)))
  + (if open (store (step o e s)) then 1 else 0)
  <= (if open s then 1 else 0) + (if isInit e then 1 else 0).
Proof.
  rewrite terminalPosts_step.
  destruct e as [|data|output|reason|height|level message data].
  - cbn [step outgoing isInit]. destruct (mountEffect_run o s) as (-> & _).
    cbn [fmap list_fmap List.filter fst snd]. unfold readyEnvelope.
    rewrite terminal_envelope. cbn [String.eqb Ascii.eqb Bool.eqb orb length].
    unfold open, mounted. cbn [hasCompleted runId isInit].
    by_units.
  - cbn [step outgoing]. cbn [fmap list_fmap List.filter length].
    destruct (handleMessage_store o data s) as [-> | [(p & Ht & ->) | (v & ->)]].
    + by_units.
    + cbn [isInit]. rewrite Ht. cbn [String.eqb Ascii.eqb Bool.eqb]. by_units.
    + unfold open, withInputs. cbn [hasCompleted runId]. by_units.
  - rewrite (call_store o (ToComplete output)). cbn [outgoing isInit]. unfold open.
    destruct (negb (hasCompleted s) && truthy (runId s)) eqn:Ho.
    + cbn [finished hasCompleted negb andb].
      destruct (parentWindow s); cbn [fmap list_fmap List.filter fst snd signal];
        rewrite ?terminal_envelope; cbn; lia.
    + rewrite Ho. destruct (parentWindow s); cbn; lia.
  - rewrite (call_store o (ToCancel reason)). cbn [outgoing isInit]. unfold open.
    destruct (negb (hasCompleted s) && truthy (runId s)) eqn:Ho.
    + cbn [finished hasCompleted negb andb].
      destruct (parentWindow s); cbn [fmap list_fmap List.filter fst snd signal];
        rewrite ?terminal_envelope; cbn; lia.
    + rewrite Ho. destruct (parentWindow s); cbn; lia.
  - cbn [step outgoing isInit]. rewrite (proj1 (resize_log_store o s)).
    destruct (parentWindow s), (truthy (runId s));
      cbn [fmap list_fmap List.filter fst snd];
      unfold resizeEnvelope; rewrite ?terminal_envelope; cbn; by_units.
  - cbn [step outgoing isInit]. rewrite (proj2 (resize_log_store o s)).
    destruct (parentWindow s), (truthy (runId s));
      cbn [fmap list_fmap List.filter fst snd];
      unfold logEnvelope; rewrite ?terminal_envelope; cbn; by_units.
Qed.

Lemma runEvents_budget o es s :
  length (terminalPosts (runEvents o es s).2)
  + (if open (runEvents o es s).1 then 1 else 0)
  <= (if open s then 1 else 0) + length (List.filter isInit es).
Proof.
  revert s. induction es as [|e es IH]; intros s.
  - cbn. lia.
  - cbn [runEvents fst snd List.filter]. rewrite terminalPosts_app, length_app.
    specialize (IH (store (step o e s))). pose proof (step_budget o e s).
    destruct (isInit e); cbn [length]; lia.
Qed.

(** X5. However complete and cancel calls are interleaved with resizes,
    logs, re-mounts and messages of any kind, a session posts at most as
    many COMPLETE and CANCEL envelopes as INIT messages were delivered to
    it: at most one per run, none before the first INIT. *)
Theorem terminal_envelopes_bounded_by_inits
    (o : Options) (embedded : bool) (es : list Event) :
  length (terminalPosts (session o embedded es).2) <= length (List.filter isInit es).
Proof.
  unfold session.
  pose proof (runEvents_budget o (Mount :: es) (initialState embedded)) as H.
  set (r := runEvents o (Mount :: es) (initialState embedded)) in *.
  change (open (initialState embedded)) with false in H.
  change (List.filter isInit (Mount :: es)) with (List.filter isInit es) in H.
  destruct (open r.1); lia.
Qed.

(** ** The exposed status *)

Lemma step_coherent o e s : coherent s -> coherent (store (step o e s)).
Proof.
  intros (Hdone & Herr & Hinit).
  assert (forall t, t = completed \/ t = cancelled ->
            coherent (finished t s)) as Hfin.
  { intros t Ht. unfold coherent, finished. cbn.
    split; [split; [by intros _ | done] |].
    split; by destruct Ht as [-> | ->]. }
  destruct e as [|data|output|reason|height|level message data].
  - cbn [step]. destruct (mountEffect_run o s) as (-> & _). done.
  - cbn [step].
    destruct (handleMessage_store o data s) as [-> | [(p & _ & ->) | (v & ->)]];
      [done | | done].
    unfold coherent, initialized. cbn. repeat split; try done.
    by intros [? | ?].
  - rewrite (call_store o (ToComplete output)).
    destruct (negb (hasCompleted s) && truthy (runId s)); [apply Hfin; by left | done].
  - rewrite (call_store o (ToCancel reason)).
    destruct (negb (hasCompleted s) && truthy (runId s)); [apply Hfin; by right | done].
  - cbn [step]. by rewrite (proj1 (resize_log_store o s)).
  - cbn [step]. by rewrite (proj2 (resize_log_store o s)).
Qed.

Lemma runEvents_coherent o es s : coherent s -> coherent (runEvents o es s).1.
Proof.
  revert s. induction es as [|e es IH]; intros s Hs; [done |].
  cbn [runEvents fst]. apply IH. by apply step_coherent.
Qed.

(** X6. In every state of a session the exposed status agrees with the
    completion guard: [hasCompleted] is set exactly when the status is
    [completed] or [cancelled]; the status is never [error]; and while it is
    [initializing] no run id, context or render mode is set. *)
Theorem status_tracks_completion (o : Options) (embedded : bool) (es : list Event) :
  let s := (session o embedded es).1 in
  (hasCompleted s = true <-> status s = completed \/ status s = cancelled)
  /\ status s <> error
  /\ (status s = initializing ->
      runId s = Null /\ context s = Null /\ renderMode s = Null).
Proof.
  apply runEvents_coherent. unfold coherent, initialState. cbn.
  repeat split; try done. by intros [? | ?].
Qed.

Lemma status_tracks_completion_witness :
  status (session defaultOptions true
            [Message (exampleInit "run-1"); Cancel (Str "changed my mind")]).1
    = cancelled
  /\ hasCompleted (session defaultOptions true
                     [Message (exampleInit "run-1"); Cancel (Str "changed my mind")]).1
     = true
  /\ status (session defaultOptions true [Message exampleUpdate]).1 = initializing
  /\ runId (session defaultOptions true [Message exampleUpdate]).1 = Null.
Proof.
  pose proof (status_tracks_completion defaultOptions true
                [Message (exampleInit "run-1"); Cancel (Str "changed my mind")])
    as (Hdone & _ & _).
  pose proof (status_tracks_completion defaultOptions true [Message exampleUpdate])
    as (_ & _ & Hinit).
  split; [reflexivity |]. split; [exact (proj2 Hdone (or_intror eq_refl)) |].
  split; [reflexivity |]. exact (proj1 (Hinit eq_refl)).
Defined.

(** ** Sessions without a run *)

(** X7. As long as no INIT message is delivered, whatever else is (updates,
    teardowns, foreign messages) and whatever is called, the only envelopes
    the hook posts are READY signals, and the status stays
    [initializing]. *)
Theorem without_init_only_ready (o : Options) (embedded : bool) (es : list Event) :
  Forall (fun e => isInit e = false) es ->
  Forall (fun p : Window * value * string => p.1.2 = readyEnvelope)
    (posts (session o embedded es).2)
  /\ runId (session o embedded es).1 = Null.
Proof.
  intros Hes.
  assert (Forall (fun e => forall data, e = Message data ->
                                        get data "type" <> Str "BRIXEL_INIT") es) as Hes'.
  { eapply Forall_impl; [exact Hes |]. intros e He data ->. by apply isInit_false. }
  split.
  - unfold session. cbn [runEvents snd]. rewrite posts_app, step_posts.
    apply Forall_app. split; [by repeat constructor |].
    cbn [step]. destruct (mountEffect_run o (initialState embedded)) as (-> & _).
    assert (runId (mounted (initialState embedded)) = Null) as Hrun by done.
    revert Hrun Hes'. generalize (mounted (initialState embedded)).
    clear Hes. induction es as [|e es IH]; intros s Hrun Hes'; [constructor |].
    inversion Hes' as [| ? ? He Hrest]; subst.
    cbn [runEvents snd]. rewrite posts_app, step_posts. apply Forall_app. split.
    + destruct e as [|data|output|reason|height|level message data];
        cbn [outgoing]; rewrite ?Hrun; cbn [truthy andb];
        try destruct (parentWindow s); try destruct (negb (hasCompleted s));
        by repeat constructor.
    + apply IH; [| done].
      apply (no_init_no_run o [e] s Hrun). by constructor.
  - unfold session. apply no_init_no_run; [done |]. constructor; [| done].
    by intros data [=].
Qed.

Lemma without_init_only_ready_witness :
  Forall (fun e => isInit e = false)
    [Message exampleUpdate; Complete (Str "A"); SetHeight (Num 120); Mount]
  /\ Forall (fun p : Window * value * string => p.1.2 = readyEnvelope)
       (posts (session defaultOptions false
                 [Message exampleUpdate; Complete (Str "A"); SetHeight (Num 120);
                  Mount]).2)
  /\ length (posts (session defaultOptions false
                      [Message exampleUpdate; Complete (Str "A");
                       SetHeight (Num 120); Mount]).2) = 2.
Proof.
  assert (Forall (fun e => isInit e = false)
            [Message exampleUpdate; Complete (Str "A"); SetHeight (Num 120); Mount])
    as Hes by (repeat constructor).
  split; [exact Hes |]. split; [| reflexivity].
  exact (proj1 (without_init_only_ready defaultOptions false _ Hes)).
Defined.

(** ** Resizes, logs and the effects *)

(** X8. [setHeight] and [log] look only at the run id of their own render:
    with a truthy one each posts exactly one envelope, RESIZE or LOG, tagged
    with that run id, and with none each does nothing; in both cases the
    state is left as it is.  Neither looks at [hasCompleted], so both keep
    posting after the run has completed or was cancelled.  The functions of
    the latest render have the run id of the state. *)
Theorem resize_and_log_ignore_completion
    (o : Options) (s : State) (w : Window) (captured : value)
    (height data : value) (level message : string) :
  parentWindow s = Some w ->
  (truthy captured = true ->
   (completion (setHeight o captured height s) = Normal tt
    /\ store (setHeight o captured height s) = s
    /\ posts (trace (setHeight o captured height s))
       = [(w, resizeEnvelope captured height, targetOrigin o)])
   /\ (completion (log o captured level message data s) = Normal tt
       /\ store (log o captured level message data s) = s
       /\ posts (trace (log o captured level message data s))
          = [(w, logEnvelope captured level message data, targetOrigin o)]))
  /\ (truthy captured = false ->
      setHeight o captured height s = mkRun (Normal tt) s []
      /\ log o captured level message data s = mkRun (Normal tt) s [])
  /\ step o (SetHeight height) s = setHeight o (runId s) height s
  /\ step o (Log level message data) s = log o (runId s) level message data s.
Proof.
  intros Hw. split; [| split; [| done]].
  - intros Hr.
    destruct (setHeight_run o captured height s) as (-> & -> & _ & ->).
    destruct (log_run o captured level message data s) as (-> & -> & _ & ->).
    by rewrite Hw, Hr.
  - intros Hr. unfold setHeight, log. by rewrite Hr.
Qed.

Lemma resize_and_log_ignore_completion_witness :
  parentWindow exampleDone = Some parent
  /\ truthy (runId exampleDone) = true
  /\ hasCompleted exampleDone = true
  /\ posts (trace (step defaultOptions (SetHeight (Num 480)) exampleDone))
     = [(parent, resizeEnvelope (Str "run-1") (Num 480), "*")]
  /\ posts (trace (log defaultOptions (Str "run-0") "info" "done" Undefined exampleDone))
     = [(parent, logEnvelope (Str "run-0") "info" "done" Undefined, "*")]
  /\ setHeight defaultOptions Null (Num 480) exampleDone
     = mkRun (Normal tt) exampleDone [].
Proof.
  pose proof (resize_and_log_ignore_completion defaultOptions exampleDone parent
                (Str "run-1") (Num 480) Undefined "info" "done" eq_refl)
    as (Hlatest & _).
  pose proof (resize_and_log_ignore_completion defaultOptions exampleDone parent
                (Str "run-0") (Num 480) Undefined "info" "done" eq_refl)
    as (Hkept & _).
  pose proof (resize_and_log_ignore_completion defaultOptions exampleDone parent
                Null (Num 480) Undefined "info" "done" eq_refl)
    as (_ & Hnone & _).
  do 3 (split; [reflexivity |]).
  split; [exact (proj2 (proj2 (proj1 (Hlatest eq_refl)))) |].
  split; [exact (proj2 (proj2 (proj2 (Hkept eq_refl)))) |].
  exact (proj1 (Hnone eq_refl)).
Defined.

(** X9. The mount effect signals READY with the SDK version every time it
    runs, whatever the state of the run, to the parent when embedded and to
    the window itself otherwise; it sets the window to post to and nothing
    else, so running it again leaves the state as the first run left it. *)
Theorem mount_effect_is_repeatable (o : Options) (s : State) :
  let w := if isEmbedded s then parent else self in
  let r := mountEffect o s in
  completion r = Normal tt
  /\ posts (trace r) = [(w, readyEnvelope, targetOrigin o)]
  /\ get (get readyEnvelope "payload") "version" = Str "1.0.0"
  /\ parentWindow (store r) = Some w
  /\ (inputs (store r), context (store r), status (store r), renderMode (store r),
      runId (store r), isEmbedded (store r), hasCompleted (store r))
     = (inputs s, context s, status s, renderMode s, runId s, isEmbedded s,
        hasCompleted s)
  /\ store (mountEffect o (store r)) = store r
  /\ posts (trace (mountEffect o (store r))) = posts (trace r).
Proof.
  intros w r. subst w r.
  destruct (mountEffect_run o s) as (Hs & Hc & Hp).
  destruct (mountEffect_run o (mounted s)) as (Hs' & _ & Hp').
  rewrite Hs, Hc, Hp, Hs', Hp'. by repeat split.
Qed.

(** X10. An INIT or UPDATE_INPUTS message that has no payload (or a null
    one) makes the listener throw a TypeError at the destructuring: the
    state is as before, no callback is called and nothing is posted. *)
Theorem payloadless_message_throws
    (o : Options) (s : State) (data : value) (t : string) :
  get data "type" = Str t ->
  t = "BRIXEL_INIT" \/ t = "BRIXEL_UPDATE_INPUTS" ->
  nullish (get data "payload") = true ->
  let r := handleMessage o data s in
  (exists text, completion r = Throw (Error "TypeError" text))
  /\ store r = s
  /\ callbacks (trace r) = []
  /\ posts (trace r) = [].
Proof.
  intros Ht Hcat Hp r. subst r.
  rewrite (handleMessage_no_payload o data s t Ht Hcat Hp). cbn [completion store trace].
  rewrite callbacks_logged, posts_logged. eauto.
Qed.

Lemma payloadless_message_throws_witness :
  get (Obj {[ "type" := Str "BRIXEL_INIT" ]}) "type" = Str "BRIXEL_INIT"
  /\ nullish (get (Obj {[ "type" := Str "BRIXEL_INIT" ]}) "payload") = true
  /\ store (handleMessage defaultOptions (Obj {[ "type" := Str "BRIXEL_INIT" ]})
              exampleReady) = exampleReady
  /\ completion (handleMessage defaultOptions (Obj {[ "type" := Str "BRIXEL_INIT" ]})
                   exampleReady) <> Normal tt.
Proof.
  pose proof (payloadless_message_throws defaultOptions exampleReady
                (Obj {[ "type" := Str "BRIXEL_INIT" ]}) "BRIXEL_INIT"
                eq_refl (or_introl eq_refl) eq_refl) as ((text & Hc) & Hs & _).
  do 2 (split; [reflexivity |]). split; [exact Hs |].
  rewrite Hc. discriminate.
Defined.

Lemma heights_run o captured heights s w :
  parentWindow s = Some w -> truthy captured = true ->
  completion (foldr (fun height rest => setHeight o captured height;; rest) (ret tt)
                heights s)
  = Normal tt
  /\ store (foldr (fun height rest => setHeight o captured height;; rest) (ret tt)
              heights s)
     = s
  /\ posts (trace (foldr (fun height rest => setHeight o captured height;; rest)
                     (ret tt) heights s))
     = (fun height => (w, resizeEnvelope captured height, targetOrigin o)) <$> heights.
Proof.
  intros Hw Hr. induction heights as [|height heights IH]; [done |].
  cbn [foldr].
  destruct (setHeight_run o captured height s) as (Hc & Hs & _ & Hp).
  rewrite (bind_normal _ _ s tt Hc), Hs. cbn [completion store trace].
  destruct IH as (-> & -> & IH). rewrite posts_app, Hp, IH.
  by rewrite Hw, Hr.
Qed.

(** X11. The resize bridge posts nothing in standalone mode or while no
    run id is set; embedded and with a run, it posts one RESIZE per
    reported entry, in the order reported and tagged with the run id, and
    leaves the state as it is. *)
Theorem auto_resize_bridge (o : Options) (s : State) (heights : list value) :
  (truthy (runId s) = false \/ isEmbedded s = false ->
   autoResize o heights s = mkRun (Normal tt) s [])
  /\ (forall w, parentWindow s = Some w ->
        truthy (runId s) = true -> isEmbedded s = true ->
        completion (autoResize o heights s) = Normal tt
        /\ store (autoResize o heights s) = s
        /\ posts (trace (autoResize o heights s))
           = (fun height => (w, resizeEnvelope (runId s) height, targetOrigin o))
               <$> heights).
Proof.
  assert (autoResize o heights s
          = (if negb (truthy (runId s)) || negb (isEmbedded s) then ret tt
             else foldr (fun height rest => setHeight o (runId s) height;; rest)
                    (ret tt) heights)
              s) as ->.
  { unfold autoResize. rewrite (bind_normal getState _ s s eq_refl).
    cbn [getState store trace app]. by destruct (_ s). }
  split.
  - intros [-> | ->]; [done |]. by destruct (truthy (runId s)).
  - intros w Hw Hr He. rewrite Hr, He. cbn [negb orb].
    exact (heights_run o (runId s) heights s w Hw Hr).
Qed.

Lemma auto_resize_bridge_witness :
  parentWindow exampleReady = Some parent
  /\ truthy (runId exampleReady) = true /\ isEmbedded exampleReady = true
  /\ posts (trace (autoResize defaultOptions [Num 120; Num 240] exampleReady))
     = [(parent, resizeEnvelope (Str "run-1") (Num 120), "*");
        (parent, resizeEnvelope (Str "run-1") (Num 240), "*")]
  /\ autoResize defaultOptions [Num 120]
       (session defaultOptions false [Message (exampleInit "run-1")]).1
     = mkRun (Normal tt)
         (session defaultOptions false [Message (exampleInit "run-1")]).1 [].
Proof.
  pose proof (auto_resize_bridge defaultOptions exampleReady [Num 120; Num 240])
    as (_ & Hposts).
  pose proof (auto_resize_bridge defaultOptions
                (session defaultOptions false [Message (exampleInit "run-1")]).1
                [Num 120]) as (Hnone & _).
  do 3 (split; [reflexivity |]).
  split; [exact (proj2 (proj2 (Hposts parent eq_refl eq_refl eq_refl))) |].
  exact (Hnone (or_intror eq_refl)).
Defined.

(** ** The development tools and the hook *)

Lemma get_field k v rest : get (Obj (<[k := v]> rest)) k = v.
Proof. unfold get. by rewrite lookup_insert_eq. Qed.

Lemma get_field_ne k k' v rest :
  k <> k' -> get (Obj (<[k := v]> rest)) k' = get (Obj rest) k'.
Proof. intros. unfold get. by rewrite lookup_insert_ne. Qed.

(** X12. The message [simulateBrixelInit] schedules (after 100 ms unless a
    delay is given) is an INIT the hook adopts in any state: the run id is
    the one given or else dev-run-001, the render mode the one given or else
    interaction, the inputs are the given ones, the status becomes [ready]
    and the completion guard is reset. *)
Theorem simulated_init_is_adopted
    (o : Options) (s : State) (given : value) (options : DevTools.SimulateOptions) :
  exists message,
    DevTools.posted (DevTools.action (DevTools.simulateBrixelInit given options))
      = [message]
    /\ DevTools.after (DevTools.simulateBrixelInit given options)
       = default 100%Z (DevTools.delay options)
    /\ completion (handleMessage o message s) = Normal tt
    /\ runId (store (handleMessage o message s))
       = Str (default "dev-run-001" (DevTools.runId options))
    /\ inputs (store (handleMessage o message s)) = given
    /\ renderMode (store (handleMessage o message s))
       = renderModeValue (default interaction (DevTools.renderMode options))
    /\ status (store (handleMessage o message s)) = ready
    /\ hasCompleted (store (handleMessage o message s)) = false.
Proof.
  eexists. split; [reflexivity |]. split; [reflexivity |].
  rewrite handleMessage_init
    by (rewrite ?(proj1 (get_envelope _ _)), ?(proj2 (get_envelope _ _)); done).
  rewrite (proj2 (get_envelope _ _)). cbn [completion store initialized
    runId inputs renderMode status hasCompleted].
  rewrite get_field.
  rewrite (get_field_ne "runId" "inputs"), get_field by done.
  rewrite (get_field_ne "runId" "renderMode"), (get_field_ne "inputs" "renderMode"),
    (get_field_ne "context" "renderMode"), get_field by done.
  done.
Qed.

(** X13. The context of a simulated INIT is the mock context overlaid with
    the given overrides, key by key.  Its [runId] is therefore dev-run-001
    unless the overrides set one: the [runId] option changes the run id of
    the payload but not the one in the context. *)
Theorem simulated_context_is_overlaid
    (o : Options) (s : State) (given : value) (options : DevTools.SimulateOptions) :
  Forall (fun message =>
            (forall k,
               get (context (store (handleMessage o message s))) k
               = match default ∅ (DevTools.context options) !! k with
                 | Some v => v
                 | None => get DevTools.mockContext k
                 end)
            /\ (default ∅ (DevTools.context options) !! "runId" = None ->
                get (context (store (handleMessage o message s))) "runId"
                = Str "dev-run-001"))
    (DevTools.posted (DevTools.action (DevTools.simulateBrixelInit given options))).
Proof.
  repeat constructor.
  - intros k.
    rewrite handleMessage_init
      by (rewrite ?(proj1 (get_envelope _ _)), ?(proj2 (get_envelope _ _)); done).
    rewrite (proj2 (get_envelope _ _)). cbn [store initialized context].
    rewrite (get_field_ne "runId" "context"), (get_field_ne "inputs" "context"),
      get_field by done.
    unfold spread2, get at 1. cbn [ownProps]. rewrite lookup_union.
    destruct (default ∅ (DevTools.context options) !! k) as [v|]; [| unfold get].
    + by destruct (_ !! k).
    + unfold DevTools.mockContext. by destruct (_ !! k).
  - intros Hno.
    rewrite handleMessage_init
      by (rewrite ?(proj1 (get_envelope _ _)), ?(proj2 (get_envelope _ _)); done).
    rewrite (proj2 (get_envelope _ _)). cbn [store initialized context].
    rewrite (get_field_ne "runId" "context"), (get_field_ne "inputs" "context"),
      get_field by done.
    unfold spread2, get. cbn [ownProps]. rewrite lookup_union, Hno. reflexivity.
Qed.

Lemma simulated_context_is_overlaid_witness :
  let options := {| DevTools.runId := Some "run-7"; DevTools.renderMode := None;
                    DevTools.context := Some (<["theme" := Str "dark"]> ∅);
                    DevTools.delay := None |} in
  let message :=
    hd Undefined (DevTools.posted (DevTools.action
                                     (DevTools.simulateBrixelInit (Obj ∅) options))) in
  let s := store (handleMessage defaultOptions message
                    (session defaultOptions false []).1) in
  runId s = Str "run-7"
  /\ get (context s) "runId" = Str "dev-run-001"
  /\ get (context s) "theme" = Str "dark"
  /\ get (context s) "locale" = Str "en-US".
Proof.
  intros options message s.
  pose proof (simulated_context_is_overlaid defaultOptions
                (session defaultOptions false []).1 (Obj ∅) options) as H.
  apply (Forall_inv (l := [])) in H. destruct H as [Hk Hrun].
  split; [reflexivity |]. split; [exact (Hrun eq_refl) |].
  split; [exact (Hk "theme") | exact (Hk "locale")].
Defined.

(** X14. The listener of [listenToUITaskMessages] calls the callback, with
    the message, exactly for the messages whose [type] is a string that
    starts with BRIXEL_, host-to-task ones included; a message whose [type]
    is there but is not a string, 0 and false included, makes it throw a
    TypeError; everything else is ignored. *)
Theorem listener_tool_classification (data : value) :
  DevTools.listenToUITaskMessages data
  = match get data "type" with
    | Str t =>
        inr (if String.prefix "BRIXEL_" t
             then [DevTools.Call DevTools.Listener [data]] else [])
    | Undefined | Null => inr []
    | _ => inl (Error "TypeError" "message.type?.startsWith is not a function")
    end.
Proof.
  unfold DevTools.listenToUITaskMessages.
  destruct data as [| |b|n| |str|l|m]; try reflexivity;
    try (cbn [truthy typeof get];
         match goal with
         | |- context [if ?c && _ then _ else _] => by destruct c
         end).
  - cbn [truthy typeof andb]. change (String.eqb "object" "object") with true.
    cbn iota. destruct (get (Obj m) "type") as [| |b|n| |t|l|m']; try reflexivity.
    cbn [DevTools.startsWithBrixel]. by destruct (String.prefix "BRIXEL_" t).
Qed.

Lemma catalogued_prefixed m :
  catalogued m = true ->
  exists t, get m "type" = Str t /\ String.prefix "BRIXEL_" t = true
            /\ t <> "BRIXEL_INIT" /\ t <> "BRIXEL_UPDATE_INPUTS"
            /\ t <> "BRIXEL_DESTROY".
Proof.
  unfold catalogued. destruct (get m "type") as [| |b|n| |t|l|fields] eqn:Ht;
    try discriminate. intros Hc. exists t. split; [done |].
  destruct (String.eqb_spec t "BRIXEL_READY") as [-> | H1]; [done |].
  destruct (String.eqb_spec t "BRIXEL_COMPLETE") as [-> | H2]; [done |].
  destruct (String.eqb_spec t "BRIXEL_CANCEL") as [-> | H3]; [done |].
  destruct (String.eqb_spec t "BRIXEL_RESIZE") as [-> | H4]; [done |].
  destruct (String.eqb_spec t "BRIXEL_LOG") as [-> | H5]; [done |].
  discriminate Hc.
Qed.

(** X15. Every envelope a hook posts in a session is passed on by a
    [listenToUITaskMessages] listener on the receiving window: the callback
    is called once, with the envelope. *)
Theorem hook_envelopes_are_heard (o : Options) (embedded : bool) (es : list Event) :
  Forall (fun p : Window * value * string =>
            DevTools.listenToUITaskMessages p.1.2
            = inr [DevTools.Call DevTools.Listener [p.1.2]])
    (posts (session o embedded es).2).
Proof.
  eapply Forall_impl; [apply catalogued_in_sessions |].
  intros p Hp. destruct (catalogued_prefixed _ Hp) as (t & Ht & Hpre & _).
  destruct (typed_is_object _ _ Ht) as [m Hm].
  unfold DevTools.listenToUITaskMessages. rewrite Ht, Hm.
  cbn [truthy typeof andb DevTools.startsWithBrixel].
  change (String.eqb "object" "object") with true. cbn iota. by rewrite Hpre.
Qed.

Lemma host_handles_envelope options t payload :
  DevTools.handleMessage options (envelope t payload)
  = if String.prefix "BRIXEL_" t then
      if String.eqb t "BRIXEL_READY" then
        inr (DevTools.optionalCall (DevTools.onReady options) DevTools.OnReady
               [get (Obj payload) "version"])
      else if String.eqb t "BRIXEL_COMPLETE" then
        inr (DevTools.optionalCall (DevTools.onComplete options) DevTools.OnComplete
               [get (Obj payload) "output"])
      else if String.eqb t "BRIXEL_CANCEL" then
        inr (DevTools.optionalCall (DevTools.onCancel options) DevTools.OnCancel
               [get (Obj payload) "reason"])
      else if String.eqb t "BRIXEL_RESIZE" then
        inr (DevTools.optionalCall (DevTools.onResize options) DevTools.OnResize
               [get (Obj payload) "height"])
      else if String.eqb t "BRIXEL_LOG" then
        inr (DevTools.optionalCall (DevTools.onLog options) DevTools.OnLog
               [get (Obj payload) "level"; get (Obj payload) "message";
                get (Obj payload) "data"])
      else if String.eqb t "BRIXEL_ERROR" then
        inr (DevTools.optionalCall (DevTools.onError options) DevTools.OnError
               [get (Obj payload) "error"])
      else inr []
    else inr [].
Proof.
  unfold DevTools.handleMessage, DevTools.payloadField.
  destruct (get_envelope t payload) as [-> ->].
  cbn [nullish DevTools.startsWithBrixel].
  change (negb (truthy (envelope t payload))
          || negb (String.eqb (typeof (envelope t payload)) "object")) with false.
  cbn iota. by destruct (String.prefix "BRIXEL_" t).
Qed.

(** X16. Whatever envelope an event makes the hook post, a mock host that
    is listening answers it by calling the matching callback, when it was
    given one, with exactly what the hook's caller passed: the output of
    [complete], the reason of [cancel], the height of [setHeight], the
    level, message and data of [log], and the SDK version for READY. *)
Theorem mock_host_hears_hook
    (o : Options) (s : State) (e : Event)
    (options : DevTools.HostOptions) (host : DevTools.Host) :
  DevTools.listening host = true ->
  Forall (fun p : Window * value * string =>
            DevTools.deliver options host p.1.2 = inr (heard options e))
    (posts (trace (step o e s))).
Proof.
  intros Hl. rewrite step_posts. unfold DevTools.deliver. rewrite Hl.
  destruct e as [|data|output|reason|height|level message data]; cbn [outgoing heard];
    try destruct (parentWindow s);
    try destruct (negb (hasCompleted s) && truthy (runId s));
    try destruct (truthy (runId s));
    try apply Forall_nil_2;
    (apply Forall_cons_2; [| apply Forall_nil_2]); cbn [fst snd signal];
    unfold readyEnvelope, resizeEnvelope, logEnvelope;
    rewrite host_handles_envelope; reflexivity.
Qed.

Lemma mock_host_hears_hook_witness :
  let options := {| DevTools.onReady := false; DevTools.onComplete := true;
                    DevTools.onCancel := false; DevTools.onResize := false;
                    DevTools.onLog := false; DevTools.onError := false |} in
  DevTools.listening DevTools.createMockBrixelHost = true
  /\ Forall (fun p : Window * value * string =>
               DevTools.deliver options DevTools.createMockBrixelHost p.1.2
               = inr [DevTools.Call DevTools.OnComplete [Str "A"]])
       (posts (trace (step defaultOptions (Complete (Str "A")) exampleReady)))
  /\ length (posts (trace (step defaultOptions (Complete (Str "A")) exampleReady)))
     = 1.
Proof.
  intros options. split; [reflexivity |]. split; [| reflexivity].
  exact (mock_host_hears_hook defaultOptions exampleReady (Complete (Str "A"))
           options DevTools.createMockBrixelHost eq_refl).
Defined.

(** ** The mock host *)

Lemma invoke_posted m host :
  Forall (fun message =>
            get message "type" = Str "BRIXEL_INIT"
            \/ truthy (get (get message "payload") "runId") = true)
    (DevTools.posted (DevTools.invoke m host).2).
Proof.
  destruct m as [given run mode|given| |theme|locale];
    cbn [DevTools.invoke].
  - apply Forall_cons_2; [by left | apply Forall_nil_2].
  - unfold DevTools.updateInputs.
    destruct (truthy (DevTools.currentRunId host)) eqn:Hr; [| apply Forall_nil_2].
    apply Forall_cons_2; [| apply Forall_nil_2]. right.
    by rewrite (proj2 (get_envelope _ _)), get_field.
  - unfold DevTools.destroy. cbn [snd].
    destruct (truthy (DevTools.currentRunId host)) eqn:Hr; [| apply Forall_nil_2].
    apply Forall_cons_2; [| apply Forall_nil_2]. right.
    by rewrite (proj2 (get_envelope _ _)), get_field.
  - unfold DevTools.updateTheme.
    destruct (truthy (DevTools.currentRunId host)) eqn:Hr; [| apply Forall_nil_2].
    apply Forall_cons_2; [| apply Forall_nil_2]. right.
    by rewrite (proj2 (get_envelope _ _)), get_field.
  - unfold DevTools.updateLocale.
    destruct (truthy (DevTools.currentRunId host)) eqn:Hr; [| apply Forall_nil_2].
    apply Forall_cons_2; [| apply Forall_nil_2]. right.
    by rewrite (proj2 (get_envelope _ _)), get_field.
Qed.

Lemma posted_app t1 t2 :
  DevTools.posted (t1 ++ t2) = (DevTools.posted t1 ++ DevTools.posted t2)%list.
Proof. unfold DevTools.posted. apply omap_app. Qed.

(** X17. Whatever methods are called on a mock host and in whatever order,
    every message it posts is an INIT or carries a truthy run id: an update
    of inputs, theme or locale, or a DESTROY, is never posted without an
    active run. *)
Theorem mock_host_posts_need_a_run (ms : list DevTools.Method) (host : DevTools.Host) :
  Forall (fun message =>
            get message "type" = Str "BRIXEL_INIT"
            \/ truthy (get (get message "payload") "runId") = true)
    (DevTools.posted (DevTools.invokeAll ms host).2).
Proof.
  revert host. induction ms as [|m ms IH]; intros host; [apply Forall_nil_2 |].
  cbn [DevTools.invokeAll snd]. rewrite posted_app. apply Forall_app. split.
  - apply invoke_posted.
  - apply IH.
Qed.

Lemma invoke_listening m host :
  DevTools.listening host = false ->
  DevTools.listening (DevTools.invoke m host).1 = false.
Proof.
  intros Hl. destruct m; cbn [DevTools.invoke]; try done;
    unfold DevTools.updateInputs, DevTools.updateTheme, DevTools.updateLocale;
    by destruct (negb (truthy (DevTools.currentRunId host))).
Qed.

Lemma invokeAll_listening ms host :
  DevTools.listening host = false ->
  DevTools.listening (DevTools.invokeAll ms host).1 = false.
Proof.
  revert host. induction ms as [|m ms IH]; intros host Hl; [done |].
  cbn [DevTools.invokeAll fst]. apply IH. by apply invoke_listening.
Qed.

Lemma invokeAll_app ms1 ms2 host :
  (DevTools.invokeAll (ms1 ++ ms2) host).1
  = (DevTools.invokeAll ms2 (DevTools.invokeAll ms1 host).1).1.
Proof.
  revert host. induction ms1 as [|m ms1 IH]; intros host; [done |].
  cbn [app DevTools.invokeAll fst]. apply IH.
Qed.

(** X18. [destroy] removes the host's listener and nothing registers it
    again: after a [destroy], whatever methods are called next, [init]
    included, no message reaches the host's callbacks any more, although
    [init] still posts its INIT. *)
Theorem destroyed_host_is_deaf
    (before later : list DevTools.Method) (host : DevTools.Host)
    (options : DevTools.HostOptions) (data given : value)
    (run : option string) (mode : option RenderMode) :
  let host' := (DevTools.invokeAll (before ++ DevTools.Destroy :: later) host).1 in
  DevTools.deliver options host' data = inr []
  /\ DevTools.deliver options (DevTools.init given run mode host').1 data = inr []
  /\ length (DevTools.posted (DevTools.init given run mode host').2) = 1.
Proof.
  intros host'.
  assert (DevTools.listening host' = false) as Hl.
  { subst host'. rewrite invokeAll_app. cbn [DevTools.invokeAll fst DevTools.invoke].
    by apply invokeAll_listening. }
  unfold DevTools.deliver. cbn [DevTools.init fst snd DevTools.listening].
  by rewrite Hl.
Qed.

(** X19. The INIT a mock host posts on [init] is adopted by the hook in
    any state: the run id is the one given or else mock-run-001, the render
    mode the one given or else interaction, the inputs are the given ones,
    the context is the mock context, the status becomes [ready] and the
    completion guard is reset; the host records the same run id as its
    current one. *)
Theorem mock_host_init_reaches_hook
    (o : Options) (s : State) (host : DevTools.Host)
    (given : value) (run : option string) (mode : option RenderMode) :
  DevTools.currentRunId (DevTools.init given run mode host).1
    = Str (default "mock-run-001" run)
  /\ length (DevTools.posted (DevTools.init given run mode host).2) = 1
  /\ Forall (fun message =>
               handleMessage o message s
               = mkRun (Normal tt)
                   {| inputs := given; context := DevTools.mockContext;
                      status := ready;
                      renderMode := renderModeValue (default interaction mode);
                      runId := Str (default "mock-run-001" run);
                      isEmbedded := isEmbedded s; parentWindow := parentWindow s;
                      hasCompleted := false |}
                   (trace (handleMessage o message s)))
       (DevTools.posted (DevTools.init given run mode host).2).
Proof.
  split; [done |]. split; [done |].
  apply Forall_cons_2; [| apply Forall_nil_2].
  rewrite handleMessage_init
    by (rewrite ?(proj1 (get_envelope _ _)), ?(proj2 (get_envelope _ _)); done).
  rewrite (proj2 (get_envelope _ _)). cbn [trace]. f_equal.
Qed.

(** X20. With an active run, the UPDATE_INPUTS a mock host posts on
    [updateInputs] is tagged with the host's current run id and makes the
    hook merge the partial inputs into its own (or take them as its inputs
    when it has none) and call the input-update callback with them; with
    no active run the host posts nothing and only warns. *)
Theorem mock_host_update_reaches_hook
    (o : Options) (s : State) (host : DevTools.Host) (partial : value) :
  (truthy (DevTools.currentRunId host) = false ->
   DevTools.updateInputs partial host
   = (host, [DevTools.Warn "[MockHost] Cannot update inputs - no active run"]))
  /\ (truthy (DevTools.currentRunId host) = true ->
      (DevTools.updateInputs partial host).1 = host
      /\ length (DevTools.posted (DevTools.updateInputs partial host).2) = 1
      /\ Forall (fun message =>
                   get (get message "payload") "runId" = DevTools.currentRunId host
                   /\ completion (handleMessage o message s) = Normal tt
                   /\ store (handleMessage o message s)
                      = withInputs (if truthy (inputs s)
                                    then spread2 (inputs s) partial else partial) s
                   /\ callbacks (trace (handleMessage o message s))
                      = (if onInputsUpdate o then [CallInputsUpdate partial] else []))
           (DevTools.posted (DevTools.updateInputs partial host).2)).
Proof.
  unfold DevTools.updateInputs. split; intros Hr; rewrite Hr; [done |].
  cbn [negb fst snd]. split; [done |]. split; [done |].
  apply Forall_cons_2; [| apply Forall_nil_2].
  rewrite handleMessage_update
    by (rewrite ?(proj1 (get_envelope _ _)), ?(proj2 (get_envelope _ _)); done).
  rewrite (proj2 (get_envelope _ _)), get_field.
  rewrite (get_field_ne "runId" "inputs"), get_field by done.
  cbn [completion store trace].
  rewrite !callbacks_app, !callbacks_logged. by destruct (onInputsUpdate o).
Qed.

Lemma mock_host_update_reaches_hook_witness :
  let host := (DevTools.init (Obj (<["a" := Num 1]> (<["b" := Num 2]> ∅)))
                 None None DevTools.createMockBrixelHost).1 in
  truthy (DevTools.currentRunId DevTools.createMockBrixelHost) = false
  /\ DevTools.posted (DevTools.updateInputs (Obj (<["b" := Num 3]> ∅))
                        DevTools.createMockBrixelHost).2 = []
  /\ truthy (DevTools.currentRunId host) = true
  /\ Forall (fun message =>
               inputs (store (handleMessage defaultOptions message exampleReady))
               = Obj (<["a" := Num 1]> (<["b" := Num 3]> ∅)))
       (DevTools.posted (DevTools.updateInputs (Obj (<["b" := Num 3]> ∅)) host).2).
Proof.
  intros host.
  pose proof (mock_host_update_reaches_hook defaultOptions exampleReady
                DevTools.createMockBrixelHost (Obj (<["b" := Num 3]> ∅)))
    as (Hnone & _).
  pose proof (mock_host_update_reaches_hook defaultOptions exampleReady host
                (Obj (<["b" := Num 3]> ∅))) as (_ & Hsome).
  split; [reflexivity |]. split; [by rewrite (Hnone eq_refl) |].
  split; [reflexivity |].
  destruct (Hsome eq_refl) as (_ & _ & H).
  eapply Forall_impl; [exact H |].
  intros message (_ & _ & -> & _). reflexivity.
Defined.

(** X21. With an active run, [destroy] posts one DESTROY tagged with the
    current run id, which calls the hook's teardown callback and leaves the
    hook's state as it is; in every case it clears the host's run, so that
    a second [destroy] and a later [updateInputs] post nothing. *)
Theorem mock_host_destroy_reaches_hook
    (o : Options) (s : State) (host : DevTools.Host) (partial : value) :
  DevTools.currentRunId (DevTools.destroy host).1 = Null
  /\ DevTools.posted (DevTools.destroy (DevTools.destroy host).1).2 = []
  /\ DevTools.posted (DevTools.updateInputs partial (DevTools.destroy host).1).2 = []
  /\ (truthy (DevTools.currentRunId host) = false ->
      DevTools.posted (DevTools.destroy host).2 = [])
  /\ (truthy (DevTools.currentRunId host) = true ->
      length (DevTools.posted (DevTools.destroy host).2) = 1
      /\ Forall (fun message =>
                   get (get message "payload") "runId" = DevTools.currentRunId host
                   /\ completion (handleMessage o message s) = Normal tt
                   /\ store (handleMessage o message s) = s
                   /\ callbacks (trace (handleMessage o message s))
                      = (if onDestroy o then [CallDestroy] else []))
           (DevTools.posted (DevTools.destroy host).2)).
Proof.
  do 3 (split; [done |]). unfold DevTools.destroy. cbn [snd].
  split; intros Hr; rewrite Hr; [done |]. split; [done |].
  apply Forall_cons_2; [| apply Forall_nil_2].
  rewrite handleMessage_destroy by (by rewrite (proj1 (get_envelope _ _))).
  rewrite (proj2 (get_envelope _ _)), get_field. cbn [completion store trace].
  rewrite !callbacks_app, !callbacks_logged. by destruct (onDestroy o).
Qed.

Lemma mock_host_destroy_reaches_hook_witness :
  let host := (DevTools.init (Obj ∅) (Some "run-1") None
                 DevTools.createMockBrixelHost).1 in
  truthy (DevTools.currentRunId DevTools.createMockBrixelHost) = false
  /\ DevTools.posted (DevTools.destroy DevTools.createMockBrixelHost).2 = []
  /\ truthy (DevTools.currentRunId host) = true
  /\ DevTools.posted (DevTools.destroy host).2
     = [envelope "BRIXEL_DESTROY" (<["runId" := Str "run-1"]> ∅)].
Proof.
  intros host.
  pose proof (mock_host_destroy_reaches_hook defaultOptions exampleReady
                DevTools.createMockBrixelHost Undefined) as (_ & _ & _ & Hnone & _).
  pose proof (mock_host_destroy_reaches_hook defaultOptions exampleReady host
                Undefined) as (_ & _ & _ & _ & Hsome).
  split; [reflexivity |]. split; [exact (Hnone eq_refl) |].
  split; [reflexivity |]. destruct (Hsome eq_refl) as [Hlen _].
  destruct (DevTools.posted (DevTools.destroy host).2) as [|message [|]] eqn:E;
    try discriminate Hlen.
  rewrite <- E. reflexivity.
Defined.

(** X22. The BRIXEL_UPDATE_THEME and BRIXEL_UPDATE_LOCALE messages a mock
    host posts are not in the hook's catalog: the hook's listener returns
    normally and leaves the whole state, its context with theme and locale
    included, as it was, without calling a callback or posting anything. *)
Theorem theme_and_locale_updates_are_ignored
    (o : Options) (s : State) (host : DevTools.Host) (theme locale : string) :
  Forall (fun message =>
            handleMessage o message s
            = mkRun (Normal tt) s (logged o "Received message:" message))
    (DevTools.posted (DevTools.updateTheme theme host).2
     ++ DevTools.posted (DevTools.updateLocale locale host).2)
  /\ (truthy (DevTools.currentRunId host) = true ->
      length (DevTools.posted (DevTools.updateTheme theme host).2
              ++ DevTools.posted (DevTools.updateLocale locale host).2) = 2).
Proof.
  split; [| unfold DevTools.updateTheme, DevTools.updateLocale; by intros ->].
  apply Forall_app. unfold DevTools.updateTheme, DevTools.updateLocale.
  split; destruct (negb (truthy (DevTools.currentRunId host)));
    try apply Forall_nil_2;
    (apply Forall_cons_2; [| apply Forall_nil_2]);
    eapply handleMessage_uncatalogued;
    try (by rewrite (proj1 (get_envelope _ _))); done.
Qed.

Lemma theme_and_locale_updates_are_ignored_witness :
  let host := (DevTools.init (Obj ∅) None None DevTools.createMockBrixelHost).1 in
  truthy (DevTools.currentRunId host) = true
  /\ Forall (fun message =>
               store (handleMessage defaultOptions message exampleReady) = exampleReady)
       (DevTools.posted (DevTools.updateTheme "dark" host).2
        ++ DevTools.posted (DevTools.updateLocale "fr-FR" host).2)
  /\ length (DevTools.posted (DevTools.updateTheme "dark" host).2
             ++ DevTools.posted (DevTools.updateLocale "fr-FR" host).2) = 2.
Proof.
  intros host.
  pose proof (theme_and_locale_updates_are_ignored defaultOptions exampleReady host
                "dark" "fr-FR") as (H & Hlen).
  split; [reflexivity |]. split; [| exact (Hlen eq_refl)].
  eapply Forall_impl; [exact H |]. by intros message ->.
Defined.

Lemma host_ignores_catalogue options m t :
  get m "type" = Str t ->
  t = "BRIXEL_INIT" \/ t = "BRIXEL_UPDATE_INPUTS" \/ t = "BRIXEL_DESTROY"
  \/ t = "BRIXEL_UPDATE_THEME" \/ t = "BRIXEL_UPDATE_LOCALE" ->
  DevTools.handleMessage options m = inr [].
Proof.
  intros Ht Hcat. destruct (typed_is_object _ _ Ht) as [fields ->].
  unfold DevTools.handleMessage. rewrite Ht.
  cbn [truthy typeof negb orb DevTools.startsWithBrixel].
  change (String.eqb "object" "object") with true. cbn [negb].
  by destruct Hcat as [-> | [-> | [-> | [-> | ->]]]].
Qed.

(** X23. A mock host shares the window with the messages it posts and so
    hears them itself; none of them (INIT, UPDATE_INPUTS, DESTROY, theme
    and locale updates) makes it call a callback. *)
Theorem mock_host_ignores_its_own_messages
    (ms : list DevTools.Method) (host : DevTools.Host)
    (options : DevTools.HostOptions) :
  Forall (fun message => DevTools.handleMessage options message = inr [])
    (DevTools.posted (DevTools.invokeAll ms host).2).
Proof.
  revert host. induction ms as [|m ms IH]; intros host; [apply Forall_nil_2 |].
  cbn [DevTools.invokeAll snd]. rewrite posted_app. apply Forall_app.
  split; [| apply IH]. clear IH.
  destruct m as [given run mode|given| |theme|locale]; cbn [DevTools.invoke];
    unfold DevTools.init, DevTools.updateInputs, DevTools.destroy,
      DevTools.updateTheme, DevTools.updateLocale; cbn [snd];
    try destruct (truthy (DevTools.currentRunId host)); cbn [negb snd];
    try apply Forall_nil_2;
    (apply Forall_cons_2; [| apply Forall_nil_2]);
    eapply host_ignores_catalogue;
    try (by rewrite (proj1 (get_envelope _ _))); tauto.
Qed.

(** ** Remote task invocation *)

Import Client.

Lemma given_spec (field : option string) :
  (given field = true <-> exists text, field = Some text /\ text <> "")
  /\ (given field = false <-> field = None \/ field = Some "").
Proof.
  destruct field as [text|]; cbn.
  - destruct (String.eqb_spec text "") as [-> | Hne]; cbn.
    + split; split;
        [done | intros (t & [= <-] & Hn); by destruct Hn | by right | done].
    + split; split;
        [by eauto | done | done | intros [H | [= H]]; [discriminate | contradiction]].
  - split; split; [done | by intros (t & H & _) | by left | done].
Qed.

(** C6, amended. The request always carries Content-Type application/json.
    With a non-empty token it carries Authorization: Bearer <token> and
    credential mode same-origin; with no token, or an empty one, it
    carries no Authorization header and credential mode include.  The
    x-conversation-id header is present, with the id as its value, exactly
    when a non-empty conversation id is supplied.  This request is the one
    the result depends on. *)
Theorem credential_routing (window : option string) (params : ExecuteTaskParams) :
  let request := fetchRequest window params in
  headers request !! "Content-Type" = Some "application/json"
  /\ (forall token, apiToken params = Some token -> token <> "" ->
        headers request !! "Authorization" = Some ("Bearer " ++ token)
        /\ credentials request = same_origin)
  /\ (apiToken params = None \/ apiToken params = Some "" ->
        headers request !! "Authorization" = None
        /\ credentials request = include)
  /\ (forall id, conversationId params = Some id -> id <> "" ->
        headers request !! "x-conversation-id" = Some id)
  /\ (conversationId params = None \/ conversationId params = Some "" ->
        headers request !! "x-conversation-id" = None)
  /\ (forall fetch fetch', fetch request = fetch' request ->
        executeTask fetch window params = executeTask fetch' window params).
Proof.
  intros request.
  assert (forall fetch fetch', fetch request = fetch' request ->
            executeTask fetch window params = executeTask fetch' window params)
    as Hsent
    by (intros fetch fetch' E; unfold executeTask; subst request; by rewrite E).
  subst request. unfold fetchRequest. cbn [headers credentials].
  destruct (given_spec (apiToken params)) as [Ht1 Ht0].
  destruct (given_spec (conversationId params)) as [Hc1 Hc0].
  split; [| split; [| split; [| split; [| split]]]].
  - destruct (given (apiToken params)), (given (conversationId params));
      by simplify_map_eq.
  - intros token Htok Hne.
    assert (given (apiToken params) = true) as -> by (apply Ht1; eauto).
    rewrite Htok. cbn [default].
    destruct (given (conversationId params)); by simplify_map_eq.
  - intros Hno. apply Ht0 in Hno. rewrite Hno.
    destruct (given (conversationId params)); by simplify_map_eq.
  - intros id Hid Hne.
    assert (given (conversationId params) = true) as -> by (apply Hc1; eauto).
    rewrite Hid. cbn [default]. by simplify_map_eq.
  - intros Hno. apply Hc0 in Hno. rewrite Hno.
    destruct (given (apiToken params)); by simplify_map_eq.
  - exact Hsent.
Qed.

Lemma credential_routing_witness :
  let request := fetchRequest (Some "app.example.com")
                   (exampleParams (Some "secret") (Some "conv-1") None) in
  headers request !! "Authorization" = Some "Bearer secret"
  /\ credentials request = same_origin
  /\ headers request !! "x-conversation-id" = Some "conv-1".
Proof.
  pose proof (credential_routing (Some "app.example.com")
                (exampleParams (Some "secret") (Some "conv-1") None))
    as (_ & Htoken & _ & Hconv & _).
  cbn zeta.
  destruct (Htoken "secret" eq_refl ltac:(discriminate)) as [Ha Hc].
  split; [exact Ha |]. split; [exact Hc |].
  exact (Hconv "conv-1" eq_refl ltac:(discriminate)).
Defined.

(** C6 as stated fails for a token supplied as the empty string: no
    Authorization header is sent and the credential mode is include; an
    empty conversation id likewise sends no x-conversation-id header. *)
Lemma empty_token_is_not_sent :
  let request := fetchRequest (Some "app.example.com")
                   (exampleParams (Some "") (Some "") None) in
  headers request !! "Authorization" = None
  /\ credentials request = include
  /\ headers request !! "x-conversation-id" = None.
Proof. repeat split. Qed.

(** C8, amended. The request goes to <baseUrl>/execute_task.  A non-empty
    [apiBaseUrl] is the base URL whatever the hostname.  With no override,
    or an empty one, the hostnames localhost and 127.0.0.1 give the
    development base URL, and every other hostname, as well as an
    environment without a window, gives the production base URL. *)
Theorem base_url_selection (window : option string) (params : ExecuteTaskParams) :
  url (fetchRequest window params) = baseUrl window params ++ "/execute_task"
  /\ (forall override, apiBaseUrl params = Some override -> override <> "" ->
        baseUrl window params = override)
  /\ (apiBaseUrl params = None \/ apiBaseUrl params = Some "" ->
        (window = Some "localhost" \/ window = Some "127.0.0.1" ->
           baseUrl window params = "http://localhost:8000/backoffice/ui-components")
        /\ (forall hostname, window = Some hostname ->
              hostname <> "localhost" -> hostname <> "127.0.0.1" ->
              baseUrl window params = "https://api.brixel.ai/backoffice/ui-components")
        /\ (window = None ->
              baseUrl window params = "https://api.brixel.ai/backoffice/ui-components")).
Proof.
  destruct (given_spec (apiBaseUrl params)) as [Hb1 Hb0].
  split; [reflexivity |]. split.
  - intros override Hu Hne. unfold baseUrl.
    assert (given (apiBaseUrl params) = true) as -> by (apply Hb1; eauto).
    by rewrite Hu.
  - intros Hno. apply Hb0 in Hno. unfold baseUrl. rewrite Hno.
    repeat split.
    + by intros [-> | ->].
    + intros hostname -> H1 H2. cbn.
      apply String.eqb_neq in H1, H2. by rewrite H1, H2.
    + by intros ->.
Qed.

Lemma base_url_selection_witness :
  url (fetchRequest (Some "localhost")
         (exampleParams None None (Some "https://staging.example.com/api")))
    = "https://staging.example.com/api/execute_task"
  /\ baseUrl (Some "localhost") (exampleParams None None None)
     = "http://localhost:8000/backoffice/ui-components"
  /\ baseUrl (Some "app.example.com") (exampleParams None None None)
     = "https://api.brixel.ai/backoffice/ui-components".
Proof.
  pose proof (base_url_selection (Some "localhost")
                (exampleParams None None (Some "https://staging.example.com/api")))
    as (Hurl & Hover & _).
  pose proof (base_url_selection (Some "localhost") (exampleParams None None None))
    as (_ & _ & Hdev).
  pose proof (base_url_selection (Some "app.example.com") (exampleParams None None None))
    as (_ & _ & Hprod).
  split; [| split].
  - rewrite Hurl.
    by rewrite (Hover "https://staging.example.com/api" eq_refl ltac:(discriminate)).
  - exact (proj1 (Hdev (or_introl eq_refl)) (or_introl eq_refl)).
  - exact (proj1 (proj2 (Hprod (or_introl eq_refl))) "app.example.com" eq_refl
             ltac:(discriminate) ltac:(discriminate)).
Defined.

(** C8 as stated fails for an override supplied as the empty string: on
    localhost the development base URL is used, not the override. *)
Lemma empty_override_does_not_win :
  baseUrl (Some "localhost") (exampleParams None None (Some ""))
    = "http://localhost:8000/backoffice/ui-components"
  /\ url (fetchRequest (Some "localhost") (exampleParams None None (Some "")))
     = "http://localhost:8000/backoffice/ui-components/execute_task"
  /\ baseUrl (Some "localhost") (exampleParams None None (Some "")) <> "".
Proof. repeat split. discriminate. Qed.

(** What the normalization does give: a response whose body parses to a
    value other than null. *)
Lemma executeTask_parsed fetch window params response data :
  fetch (fetchRequest window params) = inr response ->
  json response = inr data -> nullish data = false ->
  executeTask fetch window params =
    if ok response then Success data
    else Failure
           (or (get data "code") (Str ("HTTP_" ++ pretty (status response))))
           (or (get data "message")
               (Str ("Request failed with status " ++ pretty (status response))))
           (inl (or (get data "details") data)).
Proof.
  intros Hf Hj Hn. unfold executeTask. rewrite Hf, Hj. unfold member. rewrite Hn.
  by destruct (ok response).
Qed.

(** A request that gets no response. *)
Lemma executeTask_network_failure fetch window params e :
  fetch (fetchRequest window params) = inl e ->
  executeTask fetch window params = caught e.
Proof. intros Hf. unfold executeTask. by rewrite Hf. Qed.

(** A response whose body does not parse, whatever its status. *)
Lemma executeTask_unparsable fetch window params response e :
  fetch (fetchRequest window params) = inr response ->
  json response = inl e ->
  executeTask fetch window params = caught e.
Proof. intros Hf Hj. unfold executeTask. by rewrite Hf, Hj. Qed.

(** An error response whose body is the JSON value null: reading
    [data.code] raises, and the [catch] clause takes over. *)
Lemma executeTask_null_error_body window params :
  executeTask (fun _ => inr {| status := 404; json := inr Null |}) window params
  = Failure (Str "NETWORK_ERROR")
      (Str "Cannot read properties of null (reading 'code')")
      (inr (Error "TypeError" "Cannot read properties of null (reading 'code')")).
Proof. reflexivity. Qed.

(** The 404 of the specification's test. *)
Lemma executeTask_not_found window params :
  executeTask
    (fun _ => inr {| status := 404;
                     json := inr (Obj {[ "message" := Str "not found" ]}) |})
    window params
  = Failure (Str "HTTP_404") (Str "not found")
      (inl (Obj {[ "message" := Str "not found" ]})).
Proof. reflexivity. Qed.

(** C7, at the input where it fails. A 502 response whose body is not
    JSON (an HTML error page of a gateway) makes [response.json()] reject
    before [response.ok] is looked at; the [catch] clause then reports the
    response as a network failure: code NETWORK_ERROR and the parser's
    message, not HTTP_502 and the status-failure message. *)
Theorem unparsable_error_body_is_network_error
    (window : option string) (params : ExecuteTaskParams) :
  let rejection := Error "SyntaxError" "Unexpected token < in JSON at position 0" in
  let fetch := fun _ : Request => inr {| status := 502; json := inl rejection |} in
  executeTask fetch window params =
    Failure (Str "NETWORK_ERROR") (Str "Unexpected token < in JSON at position 0")
      (inr rejection)
  /\ executeTask fetch window params <>
       Failure (Str "HTTP_502") (Str "Request failed with status 502")
         (inr rejection).
Proof. split; [reflexivity | discriminate]. Qed.



(** ** Further properties of the remote invocation *)

(** X24. [executeTask] reports success exactly when the request got a
    response with a 2xx status whose body parsed; the data is then the
    parsed body.  No other outcome is ever a success. *)
Theorem success_iff_ok_and_parsed
    (fetch : Request -> thrown + Response) (window : option string)
    (params : ExecuteTaskParams) (data : value) :
  executeTask fetch window params = Success data
  <-> exists response,
        fetch (fetchRequest window params) = inr response
        /\ ok response = true /\ json response = inr data.
Proof.
  unfold executeTask. split.
  - destruct (fetch (fetchRequest window params)) as [e | response]; [done |].
    destruct (json response) as [e | body] eqn:Hj; [done |].
    destruct (ok response) eqn:Hok; cbn [negb].
    + intros [= ->]. eauto.
    + by destruct (member body "code").
  - intros (response & -> & Hok & ->). by rewrite Hok.
Qed.

Lemma success_iff_ok_and_parsed_witness :
  executeTask
    (fun _ => inr {| status := 200; json := inr (Obj {[ "answer" := Num 42 ]}) |})
    (Some "app.example.com") (exampleParams None None None)
  = Success (Obj {[ "answer" := Num 42 ]}).
Proof.
  apply success_iff_ok_and_parsed. eexists. repeat split.
Defined.

(** X25. Every failure [executeTask] reports carries a truthy error code.
    The failures are of two kinds, told apart by their details: those of
    the [catch] clause, with code NETWORK_ERROR and the caught thing as
    details, and those of a non-2xx response with a parsed body, with a
    truthy message and a body value as details. *)
Theorem failure_code_is_truthy
    (fetch : Request -> thrown + Response) (window : option string)
    (params : ExecuteTaskParams) (code message : value) (details : value + thrown) :
  executeTask fetch window params = Failure code message details ->
  truthy code = true
  /\ ((exists e, details = inr e /\ code = Str "NETWORK_ERROR")
      \/ (exists response data,
            fetch (fetchRequest window params) = inr response
            /\ ok response = false /\ json response = inr data
            /\ details = inl (or (get data "details") data)
            /\ truthy message = true)).
Proof.
  unfold executeTask.
  destruct (fetch (fetchRequest window params)) as [e | response];
    [intros [= <- <- <-]; split; [done | left; eauto] |].
  destruct (json response) as [e | data] eqn:Hj;
    [intros [= <- <- <-]; split; [done | left; eauto] |].
  destruct (ok response) eqn:Hok; cbn [negb]; [done |].
  unfold member. destruct (nullish data) eqn:Hn;
    [intros [= <- <- <-]; split; [done | left; eauto] |].
  intros [= <- <- <-]. split.
  - unfold or. by destruct (truthy (get data "code")) eqn:Hc.
  - right. exists response, data. repeat split; try done.
    unfold or. by destruct (truthy (get data "message")) eqn:Hm.
Qed.

Lemma failure_code_is_truthy_witness :
  truthy (Str "HTTP_404") = true
  /\ executeTask
       (fun _ => inr {| status := 404; json := inr (Obj {[ "code" := Num 0 ]}) |})
       (Some "app.example.com") (exampleParams None None None)
     = Failure (Str "HTTP_404") (Str "Request failed with status 404")
         (inl (Obj {[ "code" := Num 0 ]})).
Proof.
  split; [| reflexivity].
  exact (proj1 (failure_code_is_truthy
                  (fun _ => inr {| status := 404;
                                   json := inr (Obj {[ "code" := Num 0 ]}) |})
                  (Some "app.example.com") (exampleParams None None None)
                  (Str "HTTP_404") (Str "Request failed with status 404")
                  (inl (Obj {[ "code" := Num 0 ]})) eq_refl)).
Defined.

(** X26. A function made by [createExecuteTask] takes its token,
    conversation id and base URL from the bound context alone: whatever the
    call passes in these three fields is overwritten, and with no context
    bound the request carries no Authorization header, credential mode
    include and the auto-detected base URL. *)
Theorem bound_task_uses_context_credentials
    (fetch : Request -> thrown + Response) (window : option string)
    (contextAuth : option (option string * option string * option string))
    (params params' : ExecuteTaskParams) :
  taskUuid params = taskUuid params' ->
  Client.inputs params = Client.inputs params' ->
  createExecuteTask fetch contextAuth window params
  = createExecuteTask fetch contextAuth window params'
  /\ (forall token conversation override,
        createExecuteTask fetch (Some (token, conversation, override)) window params
        = executeTask fetch window
            {| taskUuid := taskUuid params; Client.inputs := Client.inputs params;
               conversationId := conversation; apiToken := token;
               apiBaseUrl := override |})
  /\ createExecuteTask fetch None window params
     = executeTask fetch window
         {| taskUuid := taskUuid params; Client.inputs := Client.inputs params;
            conversationId := None; apiToken := None; apiBaseUrl := None |}
  /\ (let request :=
         fetchRequest window
           {| taskUuid := taskUuid params; Client.inputs := Client.inputs params;
              conversationId := None; apiToken := None; apiBaseUrl := None |} in
      headers request !! "Authorization" = None
      /\ credentials request = include
      /\ url request = getApiBaseUrl window ++ "/execute_task").
Proof.
  intros Hu Hi. unfold createExecuteTask. rewrite Hu, Hi. by repeat split.
Qed.

Lemma bound_task_uses_context_credentials_witness :
  createExecuteTask
    (fun request => inr {| status := 200;
                           json := inr (Str (url request)) |})
    (Some (Some "bound", None, None)) (Some "localhost")
    (exampleParams (Some "mine") (Some "conv-1") (Some "https://elsewhere.example"))
  = Success (Str "http://localhost:8000/backoffice/ui-components/execute_task").
Proof.
  destruct (bound_task_uses_context_credentials
              (fun request => inr {| status := 200;
                                     json := inr (Str (url request)) |})
              (Some "localhost") (Some (Some "bound", None, None))
              (exampleParams (Some "mine") (Some "conv-1")
                 (Some "https://elsewhere.example"))
              (exampleParams None None None) eq_refl eq_refl) as (-> & _).
  reflexivity.
Defined.
